(** * prysm.io: instrument file codecs

    A shallow embedding of the readers and writers of [prysm/io.py]: the
    Code V grid-sag writer and reader ([write_codev_gridint],
    [read_codev_gridint]), the Trioptics certificate readers
    ([read_trioptics_mtf_vs_field_mtflab_v5], [read_any_trioptics_mht]) and
    the Zygo binary reader and writer ([read_zygo_dat], [write_zygo_dat]).

    Conventions of the embedding.
    - A Python [str] is a [string] of 8-bit characters; [upper] and [lower]
      act on the ASCII letters.
    - A Python exception is a value of [exn]; a function that can raise
      returns a [result].
    - A [float64] is an exact rational ([Q]); NaN is [None] in an
      [option Q].  Rounding of double arithmetic is not modelled; the
      rounding of a header field to [float32] is.
    - [bytes] are a [list byte]. *)

From Stdlib Require Import ZArith QArith Qround Qabs List String Ascii Lia Lqa Bool.
From Stdlib.Strings Require Import Byte.
From Stdlib Require Import DecimalString.
From stdpp Require Import base strings gmap.
Import ListNotations.

Local Open Scope string_scope.
Local Open Scope list_scope.
Local Open Scope Z_scope.

(** ** Exceptions and results *)

Inductive exn : Type :=
| ValueError (msg : string)
| KeyError (key : string)
| TypeError (msg : string)
| IndexError (msg : string)
| UnboundLocalError (name : string)
| AttributeError (msg : string)
| StructError (msg : string)
| UnicodeDecodeError
| OverflowError (msg : string)
| AssertionError (msg : string).

Inductive result (A : Type) : Type :=
| Ok (a : A)
| Raise (e : exn).
Arguments Ok {A} a.
Arguments Raise {A} e.

Definition bind {A B} (r : result A) (k : A -> result B) : result B :=
  match r with
  | Ok a => k a
  | Raise e => Raise e
  end.

Notation "'let*' x ':=' r 'in' k" := (bind r (fun x => k))
  (at level 10, x pattern, r at level 100, k at level 200).

Definition is_ValueError (e : exn) : bool :=
  match e with ValueError _ => true | _ => false end.

(** A local variable that a path of the function may leave unassigned. *)
Inductive local (A : Type) : Type :=
| Unbound
| Bound (v : A).
Arguments Unbound {A}.
Arguments Bound {A} v.

Definition read_local {A} (name : string) (x : local A) : result A :=
  match x with
  | Bound v => Ok v
  | Unbound => Raise (UnboundLocalError name)
  end.

(** ** Python strings *)

Module Py.

Fixpoint take (n : nat) (s : string) : string :=
  match n, s with
  | S k, String c s' => String c (take k s')
  | _, _ => EmptyString
  end.

Fixpoint drop (n : nat) (s : string) : string :=
  match n, s with
  | S k, String _ s' => drop k s'
  | _, _ => s
  end.

(** [s[a:b]], [s[:b]] and [s[a:]]: a negative bound counts from the end,
    and both bounds are clipped to the string. *)
Definition clip (len i : Z) : nat :=
  Z.to_nat (if i <? 0 then Z.max 0 (i + len) else Z.min i len).

Definition slice (s : string) (a b : Z) : string :=
  let len := Z.of_nat (String.length s) in
  let lo := clip len a in
  let hi := clip len b in
  take (hi - lo) (drop lo s).

Definition slice_to (s : string) (b : Z) : string := slice s 0 b.

Definition slice_from (s : string) (a : Z) : string :=
  drop (clip (Z.of_nat (String.length s)) a) s.

(** [s.startswith(p)] *)
Fixpoint startswith (s p : string) {struct p} : bool :=
  match p with
  | EmptyString => true
  | String a p' =>
      match s with
      | EmptyString => false
      | String b s' => Ascii.eqb a b && startswith s' p'
      end
  end.

(** [s.find(sub)]: the first position of [sub] in [s], or [-1]. *)
Fixpoint index_of (sub s : string) : option nat :=
  if startswith s sub then Some 0%nat
  else match s with
       | EmptyString => None
       | String _ s' => option_map S (index_of sub s')
       end.

Definition find (s sub : string) : Z :=
  match index_of sub s with
  | Some i => Z.of_nat i
  | None => -1
  end.

(** [s.find(sub, start)] for [0 <= start]. *)
Definition find_from (s sub : string) (start : nat) : Z :=
  if (String.length s <? start)%nat then -1
  else match index_of sub (drop start s) with
       | Some i => Z.of_nat (start + i)
       | None => -1
       end.

(** [str.isspace] on one character of the Latin-1 range. *)
Definition isspace (c : ascii) : bool :=
  let n := nat_of_ascii c in
  ((9 <=? n) && (n <=? 13) || (28 <=? n) && (n <=? 32)
   || (n =? 133) || (n =? 160))%nat.

(** [s.split()]: the maximal runs of non-space characters. *)
Fixpoint split_ws_go (s : string) (cur : string) : list string :=
  match s with
  | EmptyString => if String.eqb cur "" then [] else [cur]
  | String c s' =>
      if isspace c
      then (if String.eqb cur "" then split_ws_go s' ""
            else cur :: split_ws_go s' "")
      else split_ws_go s' (cur +:+ String c "")
  end.

Definition split_ws (s : string) : list string := split_ws_go s "".

(** [s.split(sep)] and [s.split(sep, maxsplit)] for a non-empty [sep].
    [skip] counts the characters of a separator still to pass over, [cur]
    is the piece being read, [left] the splits still allowed ([None]: no
    limit). *)
Fixpoint split_go (sep s : string) (skip : nat) (cur : string)
    (left : option nat) : list string :=
  match s with
  | EmptyString => [cur]
  | String c s' =>
      match skip with
      | S k => split_go sep s' k cur left
      | O =>
          let may := match left with Some O => false | _ => true end in
          if may && startswith s sep
          then cur :: split_go sep s' (String.length sep - 1) ""
                        (option_map Nat.pred left)
          else split_go sep s' 0 (cur +:+ String c "") left
      end
  end.

Definition split (s sep : string) : list string :=
  split_go sep s 0 "" None.

Definition split_max (s sep : string) (maxsplit : nat) : list string :=
  split_go sep s 0 "" (Some maxsplit).

(** [s.splitlines()]: the line boundaries of the Latin-1 range are
    [\n], [\r], [\r\n], [\v], [\f], [\x1c], [\x1d], [\x1e] and [\x85]. *)
Definition is_linebreak (c : ascii) : bool :=
  let n := nat_of_ascii c in
  ((10 <=? n) && (n <=? 13) || (28 <=? n) && (n <=? 30) || (n =? 133))%nat.

Fixpoint splitlines_go (s : string) (cur : string) (after_cr : bool)
    : list string :=
  match s with
  | EmptyString => if String.eqb cur "" then [] else [cur]
  | String c s' =>
      if after_cr && (nat_of_ascii c =? 10)%nat
      then splitlines_go s' cur false
      else if is_linebreak c
      then cur :: splitlines_go s' "" (nat_of_ascii c =? 13)%nat
      else splitlines_go s' (cur +:+ String c "") false
  end.

Definition splitlines (s : string) : list string := splitlines_go s "" false.

Definition upper_char (c : ascii) : ascii :=
  let n := nat_of_ascii c in
  if ((97 <=? n) && (n <=? 122))%nat then ascii_of_nat (n - 32) else c.

Definition lower_char (c : ascii) : ascii :=
  let n := nat_of_ascii c in
  if ((65 <=? n) && (n <=? 90))%nat then ascii_of_nat (n + 32) else c.

Fixpoint map_chars (f : ascii -> ascii) (s : string) : string :=
  match s with
  | EmptyString => EmptyString
  | String c s' => String (f c) (map_chars f s')
  end.

Definition upper : string -> string := map_chars upper_char.
Definition lower : string -> string := map_chars lower_char.

Fixpoint lstrip (s : string) : string :=
  match s with
  | String c s' => if isspace c then lstrip s' else s
  | EmptyString => EmptyString
  end.

Fixpoint rev_string (s acc : string) : string :=
  match s with
  | EmptyString => acc
  | String c s' => rev_string s' (String c acc)
  end.

Definition rstrip (s : string) : string :=
  rev_string (lstrip (rev_string s "")) "".

Definition strip (s : string) : string := rstrip (lstrip s).

Definition newline : string := String (ascii_of_nat 10) "".

(** [repr(s)] of a [str] that holds no quote, backslash or control
    character. *)
Definition repr (s : string) : string := "'" +:+ s +:+ "'".

(** [l[a:b]] on a list, with the same treatment of the bounds. *)
Definition lslice {A} (l : list A) (a b : Z) : list A :=
  let len := Z.of_nat (List.length l) in
  let lo := clip len a in
  let hi := clip len b in
  firstn (hi - lo) (skipn lo l).

Definition lslice_from {A} (l : list A) (a : Z) : list A :=
  skipn (clip (Z.of_nat (List.length l)) a) l.

End Py.

(** ** numpy helpers *)

Module Np.

(** A cell of a [float64] array handed to a writer: a rational, or NaN
    ([None]).  Infinite cells are not modelled on that side. *)
Definition cell : Type := option Q.

(** A Python [float] that comes out of a file: a rational, an infinity or
    NaN. *)
Inductive float : Type :=
| Fin (q : Q)
| Inf (negative : bool)
| NaN.

Definition fmul (a b : float) : float :=
  match a, b with
  | NaN, _ | _, NaN => NaN
  | Fin x, Fin y => Fin (x * y)
  | Inf s, Inf t => Inf (xorb s t)
  | Inf s, Fin y | Fin y, Inf s =>
      if Qeq_bool y 0 then NaN else Inf (xorb s (negb (Qle_bool 0 y)))
  end.

Definition isnan (c : cell) : bool :=
  match c with None => true | Some _ => false end.

(** [np.around]: to the nearest integer, a tie going to the even one. *)
Definition around (q : Q) : Z :=
  let f := Qfloor q in
  match ((q - inject_Z f) ?= (1 # 2))%Q with
  | Lt => f
  | Gt => f + 1
  | Eq => if Z.even f then f else f + 1
  end.

(** Conversion of a float to an integer type drops the fraction. *)
Definition trunc (q : Q) : Z := Z.quot (Qnum q) (Z.pos (Qden q)).

(** [astype(np.int16)] and [astype(np.int32)] of an integral value.  In range
    the value is kept.  Out of range C leaves the conversion undefined; the
    model wraps around, and no statement below relies on it. *)
Definition wrap (bits : Z) (z : Z) : Z :=
  (z + 2 ^ (bits - 1)) mod 2 ^ bits - 2 ^ (bits - 1).

Definition astype_int16 (z : Z) : Z := wrap 16 z.
Definition astype_int32 (z : Z) : Z := wrap 32 z.

(** [np.nanmin] and [np.nanmax] of the cells that are not NaN; [None]
    when there is none. *)
Definition qmin (a b : Q) : Q := if Qle_bool a b then a else b.
Definition qmax (a b : Q) : Q := if Qle_bool a b then b else a.

Fixpoint nan_fold (f : Q -> Q -> Q) (l : list cell) : option Q :=
  match l with
  | [] => None
  | None :: l' => nan_fold f l'
  | Some q :: l' =>
      match nan_fold f l' with
      | None => Some q
      | Some r => Some (f q r)
      end
  end.

Definition nanmin : list cell -> option Q := nan_fold qmin.
Definition nanmax : list cell -> option Q := nan_fold qmax.

(** [a.ravel()] of a 2D array given by its rows, and [reshape((r, c))] of a
    flat array into [r] rows of [c] entries. *)
Definition ravel {A} (a : list (list A)) : list A := concat a.

Fixpoint reshape {A} (r c : nat) (flat : list A) : list (list A) :=
  match r with
  | O => []
  | S r' => firstn c flat :: reshape r' c (skipn c flat)
  end.

Definition size {A} (a : list (list A)) : nat := List.length (ravel a).

Definition shape {A} (a : list (list A)) : nat * nat :=
  (List.length a, match a with [] => O | row :: _ => List.length row end).

End Np.

(** ** Code V grid-sag files *)

Module CodeV.

(** What [np.savetxt] is handed: the second header line
    [GRD n m typ WVL 1.0 SSZ scale NDA -32768] and one text line per row of
    the reshaped array. *)
Record gridint_file : Type := {
  gf_comment : string;
  gf_n : nat;
  gf_m : nat;
  gf_typ : string;
  gf_scale : option Q;
  gf_rows : list (list Z)
}.

(** [min(a, b)] of Python: [b] when [b < a], else [a]. *)
Definition py_min (a b : Q) : Q := if Qle_bool a b then a else b.

(** The [while (array.size % width) != 0: width -= 1] loop.  At [width = 0]
    Python would raise on [% 0]; the loop stops at 1 at the latest. *)
Fixpoint find_width (size width : nat) : nat :=
  match width with
  | O => O
  | S w' => if (size mod width =? 0)%nat then width else find_width size w'
  end.

(** [np.around(array * scale).astype(np.int16)] on a cell that is not NaN;
    a NaN cell is then stamped [-32768]. *)
Definition quantize (scale : Q) (c : Q) : Z :=
  Np.astype_int16 (Np.around (c * scale)).

(** A cell of the written array: NaN cells carry [-32768]; so does every
    cell when the scale is NaN, all of them being NaN then. *)
Definition quantize_cell (scale : option Q) (c : Np.cell) : Z :=
  match c, scale with
  | Some v, Some s => quantize s v
  | _, _ => -32768
  end.

Definition cell_um (c : Np.cell) : Np.cell :=
  option_map (fun q => q / 1000)%Q c.

(** [write_codev_gridint(array, filename, comment, typ)].  The division
    [-32767 / mn_valid] is the rational one: for a zero extreme, where
    numpy yields an infinity, its value here is 0.  An array of NaNs only
    has a NaN scale ([None]) and every cell stamped; an empty array makes
    [np.nanmin] raise. *)
Definition write_codev_gridint (array : list (list Np.cell))
    (comment typ : string) : result gridint_file :=
  let typ := Py.upper typ in
  if negb (existsb (String.eqb typ) ["SUR"; "WFR"; "FIL"])
  then Raise (AssertionError "typ must be one of SUR, WFR, FIL")
  else
    let comment :=
      if String.eqb comment "" then "CV Grid Sag generated by prysm"
      else comment in
    let array := map (map cell_um) array in
    if (Np.size array =? 0)%nat
    then Raise (ValueError
      "zero-size array to reduction operation fmin which has no identity")
    else
      let scale :=
        match Np.nanmin (Np.ravel array), Np.nanmax (Np.ravel array) with
        | Some mn_valid, Some mx_valid =>
            let scale_down := (- (32767 # 1) / mn_valid)%Q in
            let scale_up := ((32767 # 1) / mx_valid)%Q in
            Some (py_min scale_down scale_up)
        | _, _ => None
        end in
      let q := map (map (quantize_cell scale)) array in
      let '(n, m) := Np.shape q in
      let width := find_width (Np.size q) 585 in
      let rows := Np.reshape width (Np.size q / width) (Np.ravel q) in
      Ok {| gf_comment := comment; gf_n := n; gf_m := m; gf_typ := typ;
            gf_scale := scale; gf_rows := rows |}.

(** *** The reader *)

Section Reader.

(** [float(tok)] and [int(tok)] of Python are taken as given: [None] is the
    [ValueError] they raise on a token that is not a number. *)
Context {F : Type}.
Variable py_float : string -> option F.
Variable py_int : string -> option Z.

Definition to_float (tok : string) : result F :=
  match py_float tok with
  | Some x => Ok x
  | None => Raise (ValueError
      ("could not convert string to float: " +:+ Py.repr tok))
  end.

Definition to_int (tok : string) : result Z :=
  match py_int tok with
  | Some x => Ok x
  | None => Raise (ValueError
      ("invalid literal for int() with base 10: " +:+ Py.repr tok))
  end.

(** The locals of the header scan.  [wvl] and [nda] start as [None]; [ssz],
    [m], [n] and [meaning] have no value until their token is met. *)
Record header : Type := {
  wvl : option F;
  nda : option Z;
  ssz : local F;
  m : local (option Z);
  n : local (option Z);
  meaning : local string
}.

Definition header0 : header :=
  {| wvl := None; nda := None; ssz := Unbound; m := Unbound; n := Unbound;
     meaning := Unbound |}.

Definition out_of_range {A} : result A :=
  Raise (IndexError "list index out of range").

(** The [while i < l] loop over [params], on the tokens from [params[i]]
    on. *)
Fixpoint scan (params : list string) (st : header) : result header :=
  match params with
  | [] => Ok st
  | tok :: rest =>
      let u := Py.upper tok in
      if String.eqb u "WVL" then
        match rest with
        | [] => out_of_range
        | v :: rest' =>
            let* x := to_float v in
            scan rest' {| wvl := Some x; nda := nda st; ssz := ssz st;
                          m := m st; n := n st; meaning := meaning st |}
        end
      else if String.eqb u "SSZ" then
        match rest with
        | [] => out_of_range
        | v :: rest' =>
            let* x := to_float v in
            scan rest' {| wvl := wvl st; nda := nda st; ssz := Bound x;
                          m := m st; n := n st; meaning := meaning st |}
        end
      else if String.eqb u "NDA" then
        match rest with
        | [] => out_of_range
        | v :: rest' =>
            let* x := to_int v in
            scan rest' {| wvl := wvl st; nda := Some x; ssz := ssz st;
                          m := m st; n := n st; meaning := meaning st |}
        end
      else if String.eqb u "GRD" then
        match rest with
        | [] => out_of_range
        | v1 :: rest1 =>
            let* x1 := to_int v1 in
            match rest1 with
            | [] => out_of_range
            | v2 :: rest2 =>
                let* x2 := to_int v2 in
                scan rest2 {| wvl := wvl st; nda := nda st; ssz := ssz st;
                              m := Bound (Some x1); n := Bound (Some x2);
                              meaning := meaning st |}
            end
        end
      else if String.eqb u "SUR" then
        scan rest {| wvl := wvl st; nda := nda st; ssz := ssz st;
                     m := m st; n := n st;
                     meaning := Bound "surface error" |}
      else if String.eqb u "WFR" then
        scan rest {| wvl := wvl st; nda := nda st; ssz := ssz st;
                     m := m st; n := n st;
                     meaning := Bound "wavefront error" |}
      else if String.eqb u "NNB" then
        scan rest st
      else
        Raise (ValueError
          ("parsing CV INT header: token " +:+ tok +:+ " not understood"))
  end.

(** The three checks after the scan.  [m is None or n is None] reads [m],
    and [n] when [m] is not [None]. *)
Definition check (st : header) : result header :=
  match wvl st with
  | None => Raise (ValueError "CV INT header did not contain WVL")
  | Some _ =>
      match nda st with
      | None => Raise (ValueError "CV INT (GRID) header did not contain NDA")
      | Some _ =>
          let* mv := read_local "m" (m st) in
          let* missing :=
            match mv with
            | None => Ok true
            | Some _ =>
                let* nv := read_local "n" (n st) in
                Ok (match nv with None => true | Some _ => false end)
            end in
          if (missing : bool)
          then Raise (ValueError
            "CV INT header did not contain GRD, only grid INT files are supported")
          else Ok st
      end
  end.

(** From [params = hdr.split()] to the last check. *)
Definition parse_header (hdr : string) : result header :=
  let* st := scan (Py.split_ws hdr) header0 in
  check st.

(** The loop that skips the comment lines, which start with [!].  Every
    turn drops at least one character of [txt]; [fuel] bounds the turns. *)
Fixpoint skip_comments (fuel : nat) (end_ : Z) (txt : string)
    : option (result string) :=
  match fuel with
  | O => None
  | S fuel' =>
      let l := Z.of_nat (String.length txt) in
      let end_ := if l <? end_ then l else end_ in
      let i := Py.find (Py.slice_to txt end_) "!" in
      if i <? 0 then Some (Ok txt)
      else
        let i := Py.find_from txt Py.newline (Z.to_nat i) in
        if i <? 0
        then Some (Raise (ValueError
          "CV INT file header corrupted - no new line found after !"))
        else skip_comments fuel' end_ (Py.slice_from txt (i + 1))
  end.

(** [read_codev_gridint] up to the checks on the header: the title, the
    parsed header and [main_data], the text that holds the grid. *)
Definition read_codev_gridint (txt : string)
    : option (result (string * header * string)) :=
  match skip_comments (S (String.length txt)) 80 txt with
  | None => None
  | Some (Raise e) => Some (Raise e)
  | Some (Ok txt) =>
      let end_ := Py.find txt Py.newline in
      if end_ <? 0
      then Some (Raise (ValueError
        "CV INT file header corrupted - no new line found after title"))
      else
        let title := Py.slice_to txt end_ in
        let txt := Py.slice_from txt (end_ + 1) in
        let end_ := Py.find txt Py.newline in
        let hdr := Py.slice_to txt end_ in
        Some (let* st := parse_header hdr in
              Ok (title, st, Py.slice_from txt (end_ + 1)))
  end.

End Reader.

End CodeV.

(** ** Trioptics certificates *)

Module Trioptics.

Definition item {A} (l : list A) (i : nat) : result A :=
  match nth_error l i with
  | Some x => Ok x
  | None => Raise (IndexError "list index out of range")
  end.

(** [for x in l: acc.append(f(x))], stopping at the first exception. *)
Fixpoint for_each {A B} (f : A -> result B) (l : list A) : result (list B) :=
  match l with
  | [] => Ok []
  | x :: l' =>
      let* y := f x in
      let* ys := for_each f l' in
      Ok (y :: ys)
  end.

(** *** MTF vs field, MTF-Lab v5 *)

Section V5.

(** [float(s)] is taken as given, [None] being its [ValueError]; so is
    [parse_trioptics_metadata_mtflab_v5], whose result is kept as it is. *)
Variable py_float : string -> option Q.
Context {Meta : Type}.
Variable parse_trioptics_metadata_mtflab_v5 : string -> result Meta.

Definition to_float (s : string) : result Q :=
  match py_float s with
  | Some x => Ok x
  | None => Raise (ValueError
      ("could not convert string to float: " +:+ Py.repr s))
  end.

(** [cell.split('>', 1)[1].split('<')[0]] *)
Definition cell_text (cell : string) : result string :=
  let* after := item (Py.split_max cell ">" 1) 1 in
  item (Py.split after "<") 0.

Definition cell_value (cell : string) : result Q :=
  let* value := cell_text cell in
  to_float value.

Record mtf_vs_field : Type := {
  tan : list (list Q);
  sag : list (list Q);
  field : list Q;
  freq : list Q;
  mdata : option Meta
}.

(** One turn of [for row in rows], on the lists built so far. *)
Definition measurement_row (acc : list (list Q) * list (list Q) * list Q)
    (row : string) : result (list (list Q) * list (list Q) * list Q) :=
  let '(tan, sag, freqs) := acc in
  let cells := Py.lslice (Py.split row "<td") 1 (-1) in
  let* cell0 := item cells 0 in
  let* label := cell_text cell0 in
  match Py.split_ws label with
  | [az; freq] =>
      let* freq0 := item (Py.split freq "(") 0 in
      let* freq := to_float freq0 in
      let* tmp := for_each cell_value (Py.lslice_from cells 1) in
      let freqs :=
        if existsb (Qeq_bool freq) freqs then freqs else freqs ++ [freq] in
      if String.eqb az "Sag"
      then Ok (tan, sag ++ [tmp], freqs)
      else Ok (tan ++ [tmp], sag, freqs)
  | [] | [_] =>
      Raise (ValueError "not enough values to unpack (expected 2)")
  | _ => Raise (ValueError "too many values to unpack (expected 2)")
  end.

Fixpoint measurement_rows (acc : list (list Q) * list (list Q) * list Q)
    (rows : list string) : result (list (list Q) * list (list Q) * list Q) :=
  match rows with
  | [] => Ok acc
  | row :: rows' =>
      let* acc' := measurement_row acc row in
      measurement_rows acc' rows'
  end.

(** The function from the first table on, given [file_contents] already cut
    at the closing marker of the certificate table. *)
Definition read_tables (file_contents : string) (md : option Meta)
    : result mtf_vs_field :=
  let start := Py.find file_contents "<!--  begin table caption -->" in
  let end_ := Py.find file_contents "<!-- end table caption -->" in
  let body := Py.slice file_contents (start + 29) end_ in
  let body := Py.lslice (Py.splitlines body) 8 (-2) in
  let* image_heights := for_each cell_value body in
  let file_contents := Py.slice_from file_contents end_ in
  let start := Py.find file_contents "<!-- begin measurement data -->" in
  let end_ := Py.find file_contents "<!-- end measurement data -->" in
  let file_contents := Py.slice file_contents (start + 31) end_ in
  let rows := Py.lslice_from (Py.split file_contents "<tr ") 1 in
  let* (tan, sag, freqs) := measurement_rows ([], [], []) rows in
  Ok {| tan := tan; sag := sag; field := image_heights; freq := freqs;
        mdata := md |}.

Definition read_trioptics_mtf_vs_field_mtflab_v5 (file_contents : string)
    (metadata : bool) : result mtf_vs_field :=
  let* md :=
    if metadata
    then (let* x := parse_trioptics_metadata_mtflab_v5 file_contents in
          Ok (Some x))
    else Ok None in
  let end_ := Py.find file_contents "<!-- close certificate table -->" in
  let file_contents := Py.slice_to file_contents end_ in
  read_tables file_contents md.

End V5.

(** *** The switchboard *)

Section Switchboard.

(** The reader behind ['MTF vs. Field'] is taken as given, with the type of
    what it returns. *)
Context {R : Type}.
Variable read_trioptics_mtf_vs_field : string -> bool -> result R.

(** A value of the switchboard: a function, or the constant
    [NotImplemented]. *)
Inductive entry : Type :=
| Function (f : string -> bool -> result R)
| NotImplemented.

Definition TRIOPTICS_SWITCHBOARD : gmap string entry :=
  {[ "MTF vs. Field" := Function read_trioptics_mtf_vs_field;
     "Distortion" := NotImplemented;
     "Axial Color" := NotImplemented;
     "Lateral Color" := NotImplemented ]}.

(** [TRIOPTICS_SWITCHBOARD[type_](data, metadata=metadata)]: the subscript
    raises [KeyError] on a missing key, the call raises [TypeError] on a
    value that is not callable. *)
Definition dispatch (type_ data : string) (metadata : bool) : result R :=
  match TRIOPTICS_SWITCHBOARD !! type_ with
  | None => Raise (KeyError type_)
  | Some (Function f) => f data metadata
  | Some NotImplemented =>
      Raise (TypeError "'NotImplementedType' object is not callable")
  end.

(** [identify_trioptics_measurement_type] on the contents of the file: the
    text after [Measure Program  : ] up to the end of its line, within
    [data[750:1500]]. *)
Definition identify_trioptics_measurement_type (data : string)
    : result (string * string) :=
  let data_parse := Py.slice data 750 1500 in
  let label := "Measure Program  : " in
  let i := Py.find data_parse label in
  if i <? 0
  then Raise (AttributeError "'NoneType' object has no attribute 'group'")
  else
    let rest := Py.slice_from data_parse (i + Z.of_nat (String.length label)) in
    let line :=
      match Py.index_of Py.newline rest with
      | Some j => Py.take j rest
      | None => rest
      end in
    Ok (Py.strip line, data).

Definition read_any_trioptics_mht (data : string) (metadata : bool)
    : result (string * R) :=
  let* (type_, data) := identify_trioptics_measurement_type data in
  let* r := dispatch type_ data metadata in
  Ok (type_, r).

End Switchboard.

End Trioptics.

(** ** Zygo binary files *)

Module Zygo.

(** *** Bytes and [struct] *)

Definition byte_of_Z (z : Z) : byte :=
  match Byte.of_N (Z.to_N (z mod 256)) with
  | Some b => b
  | None => Byte.x00
  end.

Definition Z_of_byte (b : byte) : Z := Z.of_N (Byte.to_N b).

(** An unsigned integer from its bytes, the most significant first, and
    the [n] low bytes of an integer in that order. *)
Definition be_to_Z (bs : list byte) : Z :=
  fold_left (fun acc b => acc * 256 + Z_of_byte b) bs 0.

Fixpoint Z_to_le (n : nat) (z : Z) : list byte :=
  match n with
  | O => []
  | S n' => byte_of_Z z :: Z_to_le n' (z / 256)
  end.

Definition Z_to_be (n : nat) (z : Z) : list byte := rev (Z_to_le n z).

Definition pow2 (e : Z) : Q :=
  if 0 <=? e then inject_Z (2 ^ e) else 1 # Z.to_pos (2 ^ (- e)).

(** IEEE 754 binary32 from its 32 bits. *)
Definition f32_of_bits (bits : Z) : Np.float :=
  let negative := Z.testbit bits 31 in
  let e := (bits / 2 ^ 23) mod 256 in
  let frac := bits mod 2 ^ 23 in
  let sign := if negative then (-1)%Z else 1 in
  if e =? 255 then (if frac =? 0 then Np.Inf negative else Np.NaN)
  else if e =? 0 then Np.Fin (inject_Z (sign * frac) * pow2 (-149))
  else Np.Fin (inject_Z (sign * (2 ^ 23 + frac)) * pow2 (e - 150)).

(** The 32 bits of the binary32 nearest to [q], ties to even; [None] when
    [q] is too large for the format, where [struct.pack] raises
    [OverflowError]. *)
Definition q_log2 (a : Q) : Z :=
  let e := Z.log2 (Qnum a) - Z.log2 (Z.pos (Qden a)) in
  if Qle_bool (pow2 e) a then e else e - 1.

Definition bits_of_q (q : Q) : option Z :=
  let a := Qabs q in
  let sign := if Qle_bool 0 q then 0 else 2 ^ 31 in
  if Qeq_bool a 0 then Some 0
  else
    let e := Z.max (q_log2 a) (-126) in
    let mant := Np.around (a * pow2 (23 - e)) in
    let bits := (e + 126) * 2 ^ 23 + mant in
    if bits <? 255 * 2 ^ 23 then Some (sign + bits) else None.

(** The codes of [struct] that the header uses. *)
Inductive code : Type :=
| IB16 | IL16 | IB32 | IL32          (* >H <H >I <I *)
| FB32 | FL32                        (* >f <f *)
| U8                                 (* B *)
| Char                               (* c *)
| Str (n : nat)                      (* <ns *)
| Pad (n : nat).                     (* nx *)

Definition calcsize (T : code) : nat :=
  match T with
  | IB16 | IL16 => 2
  | IB32 | IL32 | FB32 | FL32 => 4
  | U8 | Char => 1
  | Str n | Pad n => n
  end.

(** ['s' in T] *)
Definition has_s (T : code) : bool :=
  match T with Str _ => true | _ => false end.

Inductive value : Type :=
| VInt (z : Z)
| VFloat (f : Np.float)
| VStr (s : string)
| VBytes (b : list byte).

(** [struct.unpack(T, b)[0]] *)
Definition unpack (T : code) (b : list byte) : result value :=
  if negb (List.length b =? calcsize T)%nat
  then Raise (StructError "unpack requires a buffer of the size of the format")
  else match T with
       | IB16 | IB32 | U8 => Ok (VInt (be_to_Z b))
       | IL16 | IL32 => Ok (VInt (be_to_Z (rev b)))
       | FB32 => Ok (VFloat (f32_of_bits (be_to_Z b)))
       | FL32 => Ok (VFloat (f32_of_bits (be_to_Z (rev b))))
       | Char | Str _ => Ok (VBytes b)
       | Pad _ => Raise (IndexError "tuple index out of range")
       end.

Definition bits_of_float (x : Np.float) : option Z :=
  match x with
  | Np.Fin q => bits_of_q q
  | Np.Inf negative => Some ((if negative then 2 ^ 31 else 0) + 255 * 2 ^ 23)
  | Np.NaN => Some (255 * 2 ^ 23 + 2 ^ 22)
  end.

Definition pack_int (n : nat) (big : bool) (v : value) : result (list byte) :=
  match v with
  | VInt z =>
      if (0 <=? z) && (z <? 2 ^ (8 * Z.of_nat n))
      then Ok (if big then Z_to_be n z else Z_to_le n z)
      else Raise (StructError "argument out of range")
  | _ => Raise (StructError "required argument is not an integer")
  end.

Definition pack_float (big : bool) (v : value) : result (list byte) :=
  let* x := match v with
            | VFloat x => Ok x
            | VInt z => Ok (Np.Fin (inject_Z z))
            | _ => Raise (StructError "required argument is not a float")
            end in
  match bits_of_float x with
  | Some bits => Ok (if big then Z_to_be 4 bits else Z_to_le 4 bits)
  | None => Raise (OverflowError "float too large to pack with f format")
  end.

(** [struct.pack(T, val)] *)
Definition pack (T : code) (v : value) : result (list byte) :=
  match T with
  | IB16 => pack_int 2 true v
  | IL16 => pack_int 2 false v
  | IB32 => pack_int 4 true v
  | IL32 => pack_int 4 false v
  | U8 => pack_int 1 true v
  | FB32 => pack_float true v
  | FL32 => pack_float false v
  | Char =>
      match v with
      | VBytes [b] => Ok [b]
      | _ => Raise (StructError "char format requires a bytes object of length 1")
      end
  | Str n =>
      match v with
      | VBytes b => Ok (firstn n (b ++ repeat Byte.x00 n))
      | _ => Raise (StructError "argument for 's' must be a bytes object")
      end
  | Pad n => Ok (repeat Byte.x00 n)
  end.

(** [struct.pack_into(T, buf, lo, val)] *)
Definition pack_into (T : code) (buf : list byte) (lo : nat) (v : value)
    : result (list byte) :=
  let* b := pack T v in
  if (lo + calcsize T <=? List.length buf)%nat
  then Ok (firstn lo buf ++ b ++ skipn (lo + calcsize T) buf)
  else Raise (StructError "pack_into requires a buffer of at least the size")
  .

(** *** The header *)

Definition ZYGO_INVALID_PHASE : Z := 2147483640.

Definition ZYGO_PHASE_RES_FACTORS : gmap Z Z :=
  {[ 0 := 4096; 1 := 32768; 2 := 131072 ]}.

Definition ZYGO_DEFAULT_WVL : Np.float :=
  Np.Fin (6327999813038332 # 10000000000000000000000).

Fixpoint spaces (n : nat) : string :=
  match n with O => "" | S n' => String " " (spaces n') end.

Fixpoint nuls (n : nat) : string :=
  match n with O => "" | S n' => String Ascii.zero (nuls n') end.

(** [_zygo_metadata_helper()]: name, code, low index, high index,
    default, in the order of the dict. *)
Definition _zygo_metadata_helper
    : list (string * (code * Z * Z * value)) := [
  ("magic_number", (IB32, 0, 4, VInt 2283471727));
  ("header_format", (IB16, 4, 6, VInt 1));
  ("header_size", (IB32, 6, 10, VInt 834));
  ("swtype", (IB16, 10, 12, VInt 1));
  ("swdate", (Str 30, 12, 42, VStr (spaces 30)));
  ("swmaj", (IB16, 42, 44, VInt 0));
  ("swmin", (IB16, 44, 46, VInt 0));
  ("swpatch", (IB16, 46, 48, VInt 0));
  ("ac_x", (IB16, 48, 50, VInt 0));
  ("ac_y", (IB16, 50, 52, VInt 0));
  ("ac_width", (IB16, 52, 54, VInt 0));
  ("ac_height", (IB16, 54, 56, VInt 0));
  ("ac_n_buckets", (IB16, 56, 58, VInt 0));
  ("ac_range", (IB16, 58, 60, VInt 0));
  ("ac_n_bytes", (IB32, 60, 64, VInt 0));
  ("cn_x", (IB16, 64, 66, VInt 0));
  ("cn_y", (IB16, 66, 68, VInt 0));
  ("cn_width", (IB16, 68, 70, VInt 0));
  ("cn_height", (IB16, 70, 72, VInt 0));
  ("cn_n_bytes", (IB32, 72, 76, VInt 0));
  ("timestamp", (IB32, 76, 80, VInt 0));
  ("comment", (Str 82, 80, 162, VStr (spaces 82)));
  ("source", (IB16, 162, 164, VInt 0));
  ("scale_factor", (FB32, 164, 168, VFloat (Np.Fin (5 # 10))));
  ("wavelength", (FB32, 168, 172, VFloat ZYGO_DEFAULT_WVL));
  ("numerical_aperture", (FB32, 172, 176, VFloat (Np.Fin (0 # 1))));
  ("obliquity_factor", (FB32, 176, 180, VFloat (Np.Fin (1 # 1))));
  ("magnification", (FB32, 180, 184, VFloat (Np.Fin (0 # 1))));
  ("lateral_resolution", (FB32, 184, 188, VFloat (Np.Fin (1 # 1))));
  ("acq_type", (IB16, 188, 190, VInt 0));
  ("intensity_average_count", (IB16, 190, 192, VInt 0));
  ("sfac_limit", (IB16, 194, 196, VInt 3));
  ("ramp_cal", (IB16, 192, 194, VInt 0));
  ("ramp_gain", (IB16, 196, 198, VInt 1753));
  ("part_thickness", (FB32, 198, 202, VFloat (Np.Fin (0 # 1))));
  ("sw_llc", (IB16, 202, 204, VInt 1));
  ("target_range", (FB32, 204, 208, VFloat (Np.Fin (1 # 10))));
  ("rad_crv_measure_seq", (IL16, 208, 210, VInt 0));
  ("min_mod", (IB32, 210, 214, VInt 17));
  ("min_mod_count", (IB32, 214, 218, VInt 50));
  ("phase_res", (IB16, 218, 220, VInt 1));
  ("min_area", (IB32, 220, 224, VInt 20));
  ("discontinuity_action", (IB16, 224, 226, VInt 1));
  ("discontinuity_filter", (FB32, 226, 230, VFloat (Np.Fin (60 # 1))));
  ("connect_order", (IB16, 230, 232, VInt 0));
  ("sign", (IB16, 232, 234, VInt 0));
  ("camera_width", (IB16, 234, 236, VInt 0));
  ("camera_height", (IB16, 236, 238, VInt 0));
  ("sys_type", (IB16, 238, 240, VInt 23));
  ("sys_board", (IB16, 240, 242, VInt 0));
  ("sys_serial", (IB16, 242, 244, VInt 0));
  ("sys_inst_id", (IB16, 244, 246, VInt 0));
  ("obj_name", (Str 12, 246, 258, VStr (spaces 12)));
  ("part_name", (Str 40, 258, 298, VStr (spaces 80)));
  ("codev_type", (IB16, 298, 300, VInt 0));
  ("phase_avg_count", (IB16, 300, 302, VInt 1));
  ("sub_sys_err", (IB16, 302, 304, VInt 0));
  ("__pad0", (Pad 16, 304, 320, VStr (nuls 16)));
  ("part_sn", (Str 40, 320, 360, VStr (spaces 40)));
  ("refractive_index", (FB32, 360, 364, VFloat (Np.Fin (1 # 1))));
  ("remove_tilt", (IB16, 364, 366, VInt 0));
  ("remove_fringes", (IB16, 366, 368, VInt 0));
  ("max_area", (IB32, 368, 372, VInt 9999999));
  ("setup_type", (IB16, 372, 374, VInt 0));
  ("wrapped", (IB16, 374, 376, VInt 0));
  ("pre_connect_filter", (FB32, 376, 380, VFloat (Np.Fin (0 # 1))));
  ("__pad1", (Pad 6, 380, 386, VStr (nuls 6)));
  ("wavelength_in_1", (FB32, 386, 390, VFloat ZYGO_DEFAULT_WVL));
  ("wavelength_in_2", (FB32, 390, 394, VFloat ZYGO_DEFAULT_WVL));
  ("wavelength_in_3", (FB32, 394, 398, VFloat ZYGO_DEFAULT_WVL));
  ("wavelength_select", (Str 8, 398, 406, VStr "1       "));
  ("fda_res", (IB16, 406, 408, VInt 0));
  ("scan_description", (Str 20, 408, 428, VStr (spaces 20)));
  ("n_fiducials", (IB16, 428, 430, VInt 0));
  ("fiducial_1", (FB32, 430, 434, VFloat (Np.Fin (0 # 1))));
  ("fiducial_2", (FB32, 434, 438, VFloat (Np.Fin (0 # 1))));
  ("fiducial_3", (FB32, 438, 442, VFloat (Np.Fin (0 # 1))));
  ("fiducial_4", (FB32, 442, 446, VFloat (Np.Fin (0 # 1))));
  ("fiducial_5", (FB32, 446, 450, VFloat (Np.Fin (0 # 1))));
  ("fiducial_6", (FB32, 450, 454, VFloat (Np.Fin (0 # 1))));
  ("fiducial_7", (FB32, 454, 458, VFloat (Np.Fin (0 # 1))));
  ("fiducial_8", (FB32, 458, 462, VFloat (Np.Fin (0 # 1))));
  ("fiducial_9", (FB32, 462, 466, VFloat (Np.Fin (0 # 1))));
  ("fiducial_10", (FB32, 466, 470, VFloat (Np.Fin (0 # 1))));
  ("fiducial_11", (FB32, 470, 474, VFloat (Np.Fin (0 # 1))));
  ("fiducial_12", (FB32, 474, 478, VFloat (Np.Fin (0 # 1))));
  ("fiducial_13", (FB32, 478, 482, VFloat (Np.Fin (0 # 1))));
  ("fiducial_14", (FB32, 482, 486, VFloat (Np.Fin (0 # 1))));
  ("pixel_width", (FB32, 486, 490, VFloat (Np.Fin (74 # 10000000))));
  ("pixel_height", (FB32, 490, 494, VFloat (Np.Fin (74 # 10000000))));
  ("exit_pupil_diameter", (FB32, 494, 498, VFloat (Np.Fin (0 # 1))));
  ("light_level_percent", (FB32, 498, 502, VFloat (Np.Fin (55 # 1))));
  ("coords_state", (IL32, 502, 506, VInt 0));
  ("coords_x", (FL32, 506, 510, VFloat (Np.Fin (0 # 1))));
  ("coords_y", (FL32, 510, 514, VFloat (Np.Fin (0 # 1))));
  ("coords_z", (FL32, 514, 518, VFloat (Np.Fin (0 # 1))));
  ("coords_a", (FL32, 518, 522, VFloat (Np.Fin (0 # 1))));
  ("coords_b", (FL32, 522, 526, VFloat (Np.Fin (0 # 1))));
  ("coords_c", (FL32, 526, 530, VFloat (Np.Fin (0 # 1))));
  ("cohrence_mode", (IL16, 530, 532, VInt 0));
  ("surface_filter", (IL16, 532, 534, VInt 0));
  ("sys_err_filename", (Str 28, 534, 562, VStr (spaces 28)));
  ("zoom_descr", (Str 8, 562, 570, VStr "   1X "));
  ("alpha_part", (FL32, 570, 574, VFloat (Np.Fin (0 # 1))));
  ("beta_part", (FL32, 574, 578, VFloat (Np.Fin (0 # 1))));
  ("dist_part", (FL32, 578, 582, VFloat (Np.Fin (0 # 1))));
  ("cam_split_loc_x", (IL16, 582, 584, VInt 0));
  ("cam_split_loc_y", (IL16, 584, 586, VInt 0));
  ("cam_split_trans_x", (IL16, 586, 588, VInt 0));
  ("cam_split_trans_y", (IL16, 588, 590, VInt 0));
  ("material_a", (Str 24, 590, 614, VStr (spaces 24)));
  ("material_b", (Str 24, 614, 638, VStr (spaces 24)));
  ("__pad2", (Pad 4, 638, 642, VStr (nuls 4)));
  ("dmi_center_x", (FL32, 642, 646, VFloat (Np.Fin (0 # 1))));
  ("dmi_center_y", (FL32, 646, 650, VFloat (Np.Fin (0 # 1))));
  ("sph_distortion_correction", (IL16, 650, 652, VInt 0));
  ("sph_dist_part_na", (FL32, 654, 658, VFloat (Np.Fin (0 # 1))));
  ("sph_dist_part_radius", (FL32, 658, 662, VFloat (Np.Fin (0 # 1))));
  ("sph_dist_cal_na", (FL32, 662, 666, VFloat (Np.Fin (0 # 1))));
  ("sph_dist_cal_radius", (FL32, 666, 670, VFloat (Np.Fin (0 # 1))));
  ("surface_type", (IL16, 670, 672, VInt 0));
  ("ac_surface_type", (IL16, 672, 674, VInt 0));
  ("z_pos", (FL32, 674, 678, VFloat (Np.Fin (0 # 1))));
  ("power_mul", (FL32, 678, 682, VFloat (Np.Fin (0 # 1))));
  ("focus_mul", (FL32, 682, 686, VFloat (Np.Fin (0 # 1))));
  ("roc_focus_cal_factor", (FL32, 686, 690, VFloat (Np.Fin (0 # 1))));
  ("roc_power_cal_factor", (FL32, 690, 694, VFloat (Np.Fin (0 # 1))));
  ("ftp_pos_left", (FL32, 694, 698, VFloat (Np.Fin (0 # 1))));
  ("ftp_pos_right", (FL32, 698, 702, VFloat (Np.Fin (0 # 1))));
  ("ftp_pos_pitch", (FL32, 702, 706, VFloat (Np.Fin (0 # 1))));
  ("ftp_pos_roll", (FL32, 706, 710, VFloat (Np.Fin (0 # 1))));
  ("min_mod_percent", (FL32, 710, 714, VFloat (Np.Fin (7 # 1))));
  ("max_intens", (IL32, 714, 718, VInt 0));
  ("ring_of_fire", (IL16, 718, 720, VInt 0));
  ("__pad3", (Pad 1, 720, 721, VStr (nuls 1)));
  ("rc_orientation", (Char, 721, 722, VStr " "));
  ("rc_distance", (FL32, 722, 726, VFloat (Np.Fin (0 # 1))));
  ("rc_angle", (FL32, 726, 730, VFloat (Np.Fin (0 # 1))));
  ("rc_diameter", (FL32, 730, 734, VFloat (Np.Fin (0 # 1))));
  ("rem_fringes_mode", (IB16, 734, 736, VInt 0));
  ("__pad4", (Pad 1, 736, 737, VStr (nuls 1)));
  ("ftpsi_phase_res", (U8, 737, 738, VInt 0));
  ("frames_acquired", (IL16, 738, 740, VInt 0));
  ("cavity_type", (IL16, 740, 742, VInt 0));
  ("cam_frame_rate", (FL32, 742, 746, VFloat (Np.Fin (0 # 1))));
  ("tune_range", (FL32, 746, 750, VFloat (Np.Fin (0 # 1))));
  ("cal_pix_x", (IL16, 750, 752, VInt 0));
  ("cal_pix_y", (IL16, 752, 754, VInt 0));
  ("test_cal_pts_1", (FL32, 758, 762, VFloat (Np.Fin (0 # 1))));
  ("test_cal_pts_2", (FL32, 762, 766, VFloat (Np.Fin (0 # 1))));
  ("test_cal_pts_3", (FL32, 766, 770, VFloat (Np.Fin (0 # 1))));
  ("test_cal_pts_4", (FL32, 770, 774, VFloat (Np.Fin (0 # 1))));
  ("ref_cal_pts_1", (FL32, 774, 778, VFloat (Np.Fin (0 # 1))));
  ("ref_cal_pts_2", (FL32, 778, 782, VFloat (Np.Fin (0 # 1))));
  ("ref_cal_pts_3", (FL32, 782, 786, VFloat (Np.Fin (0 # 1))));
  ("ref_cal_pts_4", (FL32, 786, 790, VFloat (Np.Fin (0 # 1))));
  ("test_cal_pix_opd", (FL32, 790, 794, VFloat (Np.Fin (0 # 1))));
  ("test_ref_pix_opd", (FL32, 794, 798, VFloat (Np.Fin (0 # 1))));
  ("flash_phase_cd_mask", (FL32, 798, 802,
      VFloat (Np.Fin (9139576869988608 # 10000000000000000000000000000000000000000000000000000000))));
  ("flash_phase_alias_mask", (FL32, 802, 806, VFloat (Np.Fin (0 # 1))));
  ("flash_phase_filter", (FL32, 806, 810, VFloat (Np.Fin (0 # 1))));
  ("scan_direction", (U8, 810, 811, VInt 0));
  ("ftpsi_res_factor", (IL16, 814, 816, VInt 0))
].

(** *** Reading *)

Section Reader.

(** [bytes.decode('utf-8')] is taken as given; [None] is its
    [UnicodeDecodeError]. *)
Variable utf8_decode : list byte -> option string.

(** [s.rstrip('\x00')] *)
Fixpoint rstrip_nul (s : string) : string :=
  match s with
  | EmptyString => EmptyString
  | String c s' =>
      match rstrip_nul s' with
      | EmptyString =>
          if Ascii.eqb c Ascii.zero then EmptyString else String c EmptyString
      | t => String c t
      end
  end.

Definition read_field (file_contents : list byte) (T : code) (lo hi : Z)
    : result value :=
  let* v := unpack T (Py.lslice file_contents lo hi) in
  match v with
  | VBytes b =>
      if has_s T
      then match utf8_decode b with
           | Some str => Ok (VStr (rstrip_nul str))
           | None => Raise UnicodeDecodeError
           end
      else Ok v
  | _ => Ok v
  end.

Fixpoint read_fields (defaults : list (string * (code * Z * Z * value)))
    (file_contents : list byte) (out : gmap string value)
    : result (gmap string value) :=
  match defaults with
  | [] => Ok out
  | (k, (T, lo, hi, default)) :: rest =>
      if Py.startswith k "__pad"
      then read_fields rest file_contents out
      else
        let* v := read_field file_contents T lo hi in
        read_fields rest file_contents (<[k := v]> out)
  end.

Definition read_zygo_metadata (file_contents : list byte)
    : result (gmap string value) :=
  read_fields _zygo_metadata_helper file_contents ∅.

Definition meta_int (meta : gmap string value) (k : string) : result Z :=
  match meta !! k with
  | Some (VInt z) => Ok z
  | Some _ => Raise (TypeError "unsupported operand type(s)")
  | None => Raise (KeyError k)
  end.

Definition meta_float (meta : gmap string value) (k : string)
    : result Np.float :=
  match meta !! k with
  | Some (VFloat x) => Ok x
  | Some _ => Raise (TypeError "unsupported operand type(s)")
  | None => Raise (KeyError k)
  end.

(** [np.frombuffer(contents, offset=offset, count=count, dtype=...)] for
    [0 <= count]: [count] items of [itemsize] bytes, each decoded by
    [item]. *)
Definition frombuffer (contents : list byte) (offset count : Z)
    (itemsize : nat) (item : list byte -> Z) : result (list Z) :=
  let ts := Z.of_nat (List.length contents) in
  if (offset <? 0) || (ts <? offset)
  then Raise (ValueError
    "offset must be non-negative and no greater than buffer length")
  else if ts - offset <? count * Z.of_nat itemsize
  then Raise (ValueError "buffer is smaller than requested size")
  else Ok (map item
             (Np.reshape (Z.to_nat count) itemsize
                (skipn (Z.to_nat offset) contents))).

(** [np.uint16], in the byte order of the host (the least significant
    byte first), and [np.int32] with the most significant byte first. *)
Definition uint16_le (b : list byte) : Z := be_to_Z (rev b).
Definition int32_be (b : list byte) : Z := Np.wrap 32 (be_to_Z b).

(** The frame that the reader returns: [intensity.mean(axis=0)] is an
    array of floats, [intensity[0]] and [intensity[-1]] keep the
    integers. *)
Inductive frame : Type :=
| IntFrame (rows : list (list Z))
| FloatFrame (rows : list (list Q)).

Fixpoint zip_with {A B C} (f : A -> B -> C) (a : list A) (b : list B)
    : list C :=
  match a, b with
  | x :: a', y :: b' => f x y :: zip_with f a' b'
  | _, _ => []
  end.

Definition add_frames (a b : list (list Q)) : list (list Q) :=
  zip_with (zip_with Qplus) a b.

(** [intensity.mean(axis=0)] of a stack of at least one frame. *)
Definition mean_axis0 (stack : list (list (list Z))) : list (list Q) :=
  match map (map (map inject_Z)) stack with
  | [] => []
  | f :: fs =>
      map (map (fun t => t / inject_Z (Z.of_nat (List.length stack)))%Q)
          (fold_left add_frames fs f)
  end.

Definition reduce (multi_intensity_action : string)
    (intensity : list (list (list Z))) : result frame :=
  if String.eqb (Py.lower multi_intensity_action) "avg"
  then Ok (FloatFrame (mean_axis0 intensity))
  else if String.eqb (Py.lower multi_intensity_action) "first"
  then let* f := Trioptics.item intensity 0 in Ok (IntFrame f)
  else if String.eqb (Py.lower multi_intensity_action) "last"
  then let* f := Trioptics.item intensity (List.length intensity - 1) in
       Ok (IntFrame f)
  else Raise (ValueError
    ("multi_intensity_action " +:+ multi_intensity_action
     +:+ " not among valid options of avg, first, last.")).

(** [phase[phase >= ZYGO_INVALID_PHASE] = np.nan] and [phase *= factor] on
    one code. *)
Definition phase_nm (factor : Np.float) (code : Z) : Np.float :=
  if ZYGO_INVALID_PHASE <=? code then Np.NaN
  else Np.fmul (Np.Fin (inject_Z code)) factor.

Record zygo_dat : Type := {
  phase : list (list Np.float);
  intensity : frame;
  meta : gmap string value
}.

Definition read_zygo_dat (contents : list byte)
    (multi_intensity_action : string) : result zygo_dat :=
  let* meta := read_zygo_metadata contents in
  let* iw := meta_int meta "ac_width" in
  let* ih := meta_int meta "ac_height" in
  let* ib := meta_int meta "ac_n_buckets" in
  let ib := if ib =? 0 then 1 else ib in
  let ilen := iw * ih * ib in
  let* pw := meta_int meta "cn_width" in
  let* ph := meta_int meta "cn_height" in
  let plen := pw * ph in
  let* header_len := meta_int meta "header_size" in
  let* flat := frombuffer contents header_len ilen 2 uint16_le in
  let stack :=
    map (Np.reshape (Z.to_nat ih) (Z.to_nat iw))
        (Np.reshape (Z.to_nat ib) (Z.to_nat (ih * iw)) flat) in
  let* intensity := reduce multi_intensity_action stack in
  let* phase_raw :=
    frombuffer contents (header_len + ilen * 2) plen 4 int32_be in
  let* scale_factor := meta_float meta "scale_factor" in
  let* obliquity_factor := meta_float meta "obliquity_factor" in
  let* wavelength := meta_float meta "wavelength" in
  let* phase_res := meta_int meta "phase_res" in
  match ZYGO_PHASE_RES_FACTORS !! phase_res with
  | None =>
      Raise (KeyError
        (DecimalString.NilZero.string_of_int (Z.to_int phase_res)))
  | Some res_factor =>
      let factor :=
        Np.fmul
          (Np.fmul
             (Np.fmul (Np.fmul scale_factor obliquity_factor) wavelength)
             (Np.Fin (/ inject_Z res_factor)))
          (Np.Fin (1000000000 # 1)) in
      Ok {| phase :=
              Np.reshape (Z.to_nat ph) (Z.to_nat pw)
                (map (phase_nm factor) phase_raw);
            intensity := intensity;
            meta := meta |}
  end.

End Reader.

(** *** Writing *)

(** [val.encode('utf-8')] of a [str] of ASCII characters. *)
Definition encode (s : string) : list byte := list_byte_of_string s.

Definition set_default (k : string) (v : value)
    (defaults : list (string * (code * Z * Z * value)))
    : list (string * (code * Z * Z * value)) :=
  map (fun '(k', (T, lo, hi, d)) =>
         if String.eqb k' k then (k', (T, lo, hi, v)) else (k', (T, lo, hi, d)))
      defaults.

(** The [for k, (T, lo, hi, val) in defaults.items()] loop of the writer. *)
Fixpoint pack_fields (defaults : list (string * (code * Z * Z * value)))
    (buf : list byte) : result (list byte) :=
  match defaults with
  | [] => Ok buf
  | (k, (T, lo, hi, val)) :: rest =>
      let* val :=
        if has_s T || (match T with Char => true | _ => false end)
        then match val with
             | VStr str => Ok (VBytes (encode str))
             | _ => Raise (AttributeError "object has no attribute 'encode'")
             end
        else Ok val in
      let* buf := pack_into T buf (Z.to_nat lo) val in
      pack_fields rest buf
  end.

(** [((phase*1e-3*phase_res_fctr)/(wavelength)).astype(np.int32)] on a cell
    that is not NaN, and the stamp on a cell that is. *)
Definition zygos (phase_res_fctr : Z) (wavelength : Q) (c : Np.cell) : Z :=
  match c with
  | None => 2147483640
  | Some p =>
      Np.astype_int32
        (Np.trunc (p * (1 # 1000) * inject_Z phase_res_fctr / wavelength))
  end.

(** [write_zygo_dat(file, phase, dx, wavelength)], the bytes written; [ts]
    is the time of the call, in whole seconds. *)
Definition write_zygo_dat (phase : list (list Np.cell)) (dx wavelength : Q)
    (ts : Z) : result (list byte) :=
  let defaults := _zygo_metadata_helper in
  let defaults :=
    List.filter (fun '(k, _) =>
              match Py.index_of "__pad" k with Some _ => false | None => true end)
           defaults in
  let buf := repeat Byte.x00 834 in
  let '(rows, cols) := Np.shape phase in
  let defaults := set_default "scale_factor" (VFloat (Np.Fin 1)) defaults in
  let defaults := set_default "obliquity_factor" (VFloat (Np.Fin 1)) defaults in
  let defaults :=
    set_default "lateral_resolution" (VFloat (Np.Fin (dx / 1000))) defaults in
  let defaults := set_default "timestamp" (VInt ts) defaults in
  let defaults := set_default "cn_width" (VInt (Z.of_nat cols)) defaults in
  let defaults := set_default "cn_height" (VInt (Z.of_nat rows)) defaults in
  let defaults :=
    set_default "cn_n_bytes" (VInt (Z.of_nat (Np.size phase) * 4)) defaults in
  let defaults :=
    set_default "wavelength" (VFloat (Np.Fin (wavelength / 1000000)))
      defaults in
  let defaults := set_default "phase_res" (VInt 1) defaults in
  match ZYGO_PHASE_RES_FACTORS !! 1 with
  | None => Raise (KeyError "1")
  | Some phase_res_fctr =>
      let* buf := pack_fields defaults buf in
      let im := map (zygos phase_res_fctr wavelength) (Np.ravel phase) in
      let bufphs := concat (map (fun z => Z_to_be 4 (z mod 2 ^ 32)) im) in
      Ok (buf ++ bufphs)
  end.

End Zygo.

(** ** Instances for the functions taken as given

    Enough of [int], [float] and [bytes.decode] to run the models on
    examples: plain decimal literals, and ASCII bytes. *)

Module Instances.

Fixpoint digits (s : string) (acc : Z) : option Z :=
  match s with
  | EmptyString => Some acc
  | String c s' =>
      let d := nat_of_ascii c in
      if ((48 <=? d) && (d <=? 57))%nat
      then digits s' (acc * 10 + Z.of_nat (d - 48))
      else None
  end.

Definition signed {A} (neg : A -> A) (f : string -> option A) (s : string)
    : option A :=
  match s with
  | String "-" s' => option_map neg (f s')
  | String "+" s' => f s'
  | _ => f s
  end.

Definition dec_nat (s : string) : option Z :=
  if String.eqb s "" then None else digits s 0.

(** [int(s)] on an optional sign and decimal digits. *)
Definition dec_int : string -> option Z := signed Z.opp dec_nat.

Definition dec_ufloat (s : string) : option Q :=
  match Py.split_max s "." 1 with
  | [ip] => option_map inject_Z (dec_nat ip)
  | [ip; fp] =>
      if String.eqb ip "" && String.eqb fp "" then None
      else match digits ip 0, digits fp 0 with
           | Some a, Some b =>
               Some (inject_Z a
                     + (b # Z.to_pos (10 ^ Z.of_nat (String.length fp))))%Q
           | _, _ => None
           end
  | _ => None
  end.

(** [float(s)] on an optional sign, digits and an optional fraction. *)
Definition dec_float : string -> option Q := signed Qopp dec_ufloat.

(** [b.decode('utf-8')] on bytes below 128. *)
Definition ascii_decode (b : list byte) : option string :=
  if forallb (fun x => Zygo.Z_of_byte x <? 128) b
  then Some (string_of_list_byte b)
  else None.

End Instances.

(** * Properties *)

(** ** The grid-sag writer *)

Module CodeVWriterFacts.
Import CodeV.

(** The loop stops on the largest divisor of [size] that is at most
    [width]. *)
Lemma find_width_divides (size width : nat) :
  (1 <= width)%nat ->
  (1 <= find_width size width <= width)%nat /\
  (size mod find_width size width = 0)%nat.
Proof.
  induction width as [|w IH]; intros Hw; [lia|].
  cbn [find_width].
  destruct (Nat.eqb_spec (size mod S w) 0) as [Hdiv|Hdiv]; [lia|].
  destruct w as [|w'].
  - rewrite Nat.mod_1_r in Hdiv. contradiction.
  - destruct IH as [? ?]; [lia|]. split; [lia|assumption].
Qed.

Lemma find_width_largest (size width v : nat) :
  (find_width size width < v <= width)%nat -> (size mod v <> 0)%nat.
Proof.
  induction width as [|w IH]; intros Hv; [lia|].
  cbn [find_width] in Hv.
  destruct (Nat.eqb_spec (size mod S w) 0) as [Hdiv|Hdiv]; [lia|].
  destruct (Nat.eq_dec v (S w)) as [->|Hne]; [assumption|].
  apply IH. lia.
Qed.

(** [reshape((r, c))] yields [r] rows. *)
Lemma reshape_length {A} (r c : nat) (flat : list A) :
  List.length (Np.reshape r c flat) = r.
Proof.
  revert flat; induction r as [|r IH]; intros flat; cbn; [reflexivity|].
  now rewrite IH.
Qed.

Lemma reshape_rows {A} (r c : nat) (flat : list A) :
  (r * c <= List.length flat)%nat ->
  Forall (fun row => List.length row = c) (Np.reshape r c flat).
Proof.
  revert flat; induction r as [|r IH]; intros flat Hlen; cbn.
  - constructor.
  - constructor.
    + rewrite length_firstn. lia.
    + apply IH. rewrite length_skipn. lia.
Qed.

Lemma size_map_map {A B} (f : A -> B) (a : list (list A)) :
  Np.size (map (map f) a) = Np.size a.
Proof.
  unfold Np.size, Np.ravel.
  induction a as [|row rows IH]; cbn; [reflexivity|].
  rewrite !length_app, length_map. now rewrite IH.
Qed.

(** Two rows of 587 cells: 1174 cells, whose divisors are 1, 2, 587 and
    1174. *)
Definition two_by_587 : list (list Np.cell) :=
  [repeat (Some (- (1000 # 1))%Q) 587; repeat (Some (1000 # 1)%Q) 587].

(** C7, on the code: for a 2 x 587 array the loop selects the width 2, the
    largest divisor of 1174 that is at most 585, and [reshape((width,
    array.size // width))] then makes [width] = 2 rows of 587 values each:
    the rows written are not [width] wide, and are wider than 585. *)
Theorem gridint_rows_are_size_over_width :
  exists f,
    write_codev_gridint two_by_587 "" "SUR" = Ok f /\
    find_width (Np.size two_by_587) 585 = 2%nat /\
    map (@List.length Z) (gf_rows f) = [587; 587]%nat.
Proof.
  eexists. split; [vm_compute; reflexivity|].
  split; vm_compute; reflexivity.
Qed.

(** In general the writer makes [width] rows of [size / width] values. *)
Lemma gridint_rows_shape (array : list (list Np.cell)) (comment typ : string)
    (f : gridint_file) :
  write_codev_gridint array comment typ = Ok f ->
  let w := find_width (Np.size array) 585 in
  List.length (gf_rows f) = w /\
  Forall (fun row => List.length row = (Np.size array / w)%nat) (gf_rows f).
Proof.
  unfold write_codev_gridint.
  destruct (negb _); [discriminate|].
  set (um := map (map cell_um) array).
  destruct (Np.size um =? 0)%nat eqn:Hsz; [discriminate|].
  set (q := map (map (quantize_cell _)) um).
  assert (Hq : Np.size q = Np.size array).
  { unfold q, um. now rewrite !size_map_map. }
  destruct (Np.shape q) as [n0 m0].
  change (List.length (Np.ravel q)) with (Np.size q). rewrite Hq.
  generalize (find_width (Np.size array) 585) as w.
  intros w [= <-]. cbn [gf_rows].
  split.
  - apply reshape_length.
  - apply reshape_rows.
    change (List.length (Np.ravel q)) with (Np.size q). rewrite Hq.
    apply Nat.Div0.mul_div_le.
Qed.

(** Rounding to the nearest integer stays between integer bounds. *)
Lemma around_bounds (a b : Z) (x : Q) :
  (inject_Z a <= x <= inject_Z b)%Q -> a <= Np.around x <= b.
Proof.
  intros [Ha Hb].
  assert (Hfa : a <= Qfloor x).
  { rewrite <- (Qfloor_Z a). now apply Qfloor_resp_le. }
  assert (Hfb : Qfloor x <= b).
  { rewrite <- (Qfloor_Z b). now apply Qfloor_resp_le. }
  assert (Hup : (inject_Z (Qfloor x) < x)%Q -> Qfloor x + 1 <= b).
  { intros Hlt.
    assert (Hq : (inject_Z (Qfloor x) < inject_Z b)%Q) by lra.
    rewrite <- Zlt_Qlt in Hq. lia. }
  unfold Np.around.
  destruct (Qcompare_spec (x - inject_Z (Qfloor x)) (1 # 2)) as [He|Hl|Hg].
  - destruct (Z.even (Qfloor x)); [lia|].
    split; [lia|]. apply Hup. lra.
  - lia.
  - split; [lia|]. apply Hup. lra.
Qed.

Lemma py_min_le_l (a b : Q) : (py_min a b <= a)%Q.
Proof.
  unfold py_min. destruct (Qle_bool a b) eqn:H; [lra|].
  destruct (Qlt_le_dec b a) as [Hlt|Hle]; [lra|].
  apply Qle_bool_iff in Hle. congruence.
Qed.

Lemma py_min_le_r (a b : Q) : (py_min a b <= b)%Q.
Proof.
  unfold py_min. destruct (Qle_bool a b) eqn:H; [|lra].
  now apply Qle_bool_iff.
Qed.

Lemma py_min_pos (a b : Q) : (0 < a -> 0 < b -> 0 < py_min a b)%Q.
Proof. unfold py_min. destruct (Qle_bool a b); auto. Qed.

(** When the data has values on both sides of zero the scale is positive
    and no finite cell leaves [-32767, 32767]. *)
Lemma quantize_in_range (mn mx c : Q) :
  (mn < 0)%Q -> (0 < mx)%Q -> (mn <= c <= mx)%Q ->
  let scale := py_min (- (32767 # 1) / mn) ((32767 # 1) / mx) in
  -32767 <= quantize scale c <= 32767.
Proof.
  intros Hmn Hmx [Hlo Hhi] scale.
  assert (E1 : (mn * (- (32767 # 1) / mn) == - (32767 # 1))%Q)
    by (apply Qmult_div_r; lra).
  assert (E2 : (mx * ((32767 # 1) / mx) == 32767 # 1)%Q)
    by (apply Qmult_div_r; lra).
  pose proof (py_min_le_l (- (32767 # 1) / mn) ((32767 # 1) / mx)) as Hl.
  pose proof (py_min_le_r (- (32767 # 1) / mn) ((32767 # 1) / mx)) as Hr.
  pose proof (py_min_pos (- (32767 # 1) / mn) ((32767 # 1) / mx)) as Hs.
  fold scale in Hl, Hr, Hs.
  revert E1 E2 Hl Hr Hs.
  generalize (- (32767 # 1) / mn)%Q as sd, ((32767 # 1) / mx)%Q as su, scale.
  clear scale. intros sd su scale E1 E2 Hl Hr Hs.
  assert (Hsd : (0 < sd)%Q) by nra.
  assert (Hsu : (0 < su)%Q) by nra.
  specialize (Hs Hsd Hsu).
  assert (Hb : -32767 <= Np.around (c * scale) <= 32767).
  { apply around_bounds. unfold inject_Z.
    assert (H1 : (mn * scale <= c * scale)%Q)
      by (apply Qmult_le_compat_r; lra).
    assert (H2 : (c * scale <= mx * scale)%Q)
      by (apply Qmult_le_compat_r; lra).
    assert (H3 : (mn * sd <= mn * scale)%Q) by nra.
    assert (H4 : (mx * scale <= mx * su)%Q) by nra.
    split; lra. }
  unfold quantize, Np.astype_int16, Np.wrap.
  rewrite Z.mod_small; lia.
Qed.

Lemma nanmin_le (l : list Np.cell) (mn v : Q) :
  Np.nanmin l = Some mn -> In (Some v) l -> (mn <= v)%Q.
Proof.
  revert mn; induction l as [|c l IH]; intros mn Hmin Hin; [contradiction|].
  cbn in Hmin. destruct c as [q|].
  - fold (Np.nanmin l) in Hmin. unfold Np.qmin in Hmin.
    destruct (Np.nanmin l) as [r|] eqn:Hr.
    + injection Hmin as <-. destruct Hin as [[= ->]|Hin].
      * destruct (Qle_bool v r) eqn:Hc; [lra|].
        destruct (Qlt_le_dec r v) as [?|Hle]; [lra|].
        apply Qle_bool_iff in Hle. congruence.
      * specialize (IH r eq_refl Hin).
        destruct (Qle_bool q r) eqn:Hc; [|lra].
        apply Qle_bool_iff in Hc. lra.
    + injection Hmin as <-.
      destruct Hin as [[= ->]|Hin]; [lra|].
      exfalso. clear IH. induction l as [|c l IHl]; [destruct Hin|].
      cbn in Hr. destruct c as [q'|].
      * fold (Np.nanmin l) in Hr. destruct (Np.nanmin l); discriminate.
      * destruct Hin as [|Hin]; [discriminate|]. now apply IHl.
  - destruct Hin as [|Hin]; [discriminate|]. now apply IH.
Qed.

Lemma nanmax_ge (l : list Np.cell) (mx v : Q) :
  Np.nanmax l = Some mx -> In (Some v) l -> (v <= mx)%Q.
Proof.
  revert mx; induction l as [|c l IH]; intros mx Hmax Hin; [contradiction|].
  cbn in Hmax. destruct c as [q|].
  - fold (Np.nanmax l) in Hmax. unfold Np.qmax in Hmax.
    destruct (Np.nanmax l) as [r|] eqn:Hr.
    + injection Hmax as <-. destruct Hin as [[= ->]|Hin].
      * destruct (Qle_bool v r) eqn:Hc; [|lra].
        apply Qle_bool_iff in Hc. lra.
      * specialize (IH r eq_refl Hin).
        destruct (Qle_bool q r) eqn:Hc; [lra|].
        destruct (Qlt_le_dec r q) as [?|Hle]; [lra|].
        apply Qle_bool_iff in Hle. congruence.
    + injection Hmax as <-.
      destruct Hin as [[= ->]|Hin]; [lra|].
      exfalso. clear IH. induction l as [|c l IHl]; [destruct Hin|].
      cbn in Hr. destruct c as [q'|].
      * fold (Np.nanmax l) in Hr. destruct (Np.nanmax l); discriminate.
      * destruct Hin as [|Hin]; [discriminate|]. now apply IHl.
  - destruct Hin as [|Hin]; [discriminate|]. now apply IH.
Qed.

(** The values of the finite cells of an array that has a negative and a
    positive value. *)
Lemma gridint_in_range_when_straddling (cells : list Np.cell) (mn mx v : Q) :
  Np.nanmin cells = Some mn -> Np.nanmax cells = Some mx ->
  (mn < 0)%Q -> (0 < mx)%Q -> In (Some v) cells ->
  let scale := py_min (- (32767 # 1) / mn) ((32767 # 1) / mx) in
  -32767 <= quantize_cell (Some scale) (Some v) <= 32767.
Proof.
  intros Hmin Hmax Hmn Hmx Hin scale. cbn [quantize_cell].
  apply quantize_in_range; try assumption.
  split; [eapply nanmin_le|eapply nanmax_ge]; eassumption.
Qed.

(** One row, two positive values. *)
Definition positive_pair : list (list Np.cell) :=
  [[Some (32767000 # 1)%Q; Some (32768000 # 1)%Q]].

(** C2, on the code: for the all-finite array [[32767000, 32768000]] (nm)
    the smaller of the two scales is the negative [-32767 / 32.767], that
    is -1, and the cell 32768000 is written as [-32768], which is outside
    [-32767, 32767] and is the stamp of a NaN cell. *)
Theorem gridint_positive_data_leaves_range :
  exists f,
    write_codev_gridint positive_pair "" "SUR" = Ok f /\
    (exists s, gf_scale f = Some s /\ (s == - (1 # 1))%Q) /\
    gf_rows f = [[-32767]; [-32768]] /\
    ~ (-32767 <= -32768 <= 32767).
Proof.
  eexists. split; [vm_compute; reflexivity|].
  split; [eexists; split; [reflexivity|reflexivity]|].
  split; [reflexivity|lia].
Qed.

End CodeVWriterFacts.

(** ** The grid-sag reader *)

Module CodeVReaderFacts.
Import CodeV.

(** The tokens that the scan dispatches on. *)
Definition keyword (u : string) : bool :=
  existsb (String.eqb u) ["WVL"; "SSZ"; "NDA"; "GRD"; "SUR"; "WFR"; "NNB"].

(** [msg] contains [tok]. *)
Definition names (msg tok : string) : Prop :=
  exists a b, msg = a +:+ tok +:+ b.

(** The items of a well-formed header: a keyword in any case, followed by
    the values it takes. *)
Inductive item : Type :=
| Wvl (kw v : string)
| Ssz (kw v : string)
| Nda (kw v : string)
| Grd (kw v1 v2 : string)
| Flag (kw : string).

Definition item_tokens (it : item) : list string :=
  match it with
  | Wvl kw v | Ssz kw v | Nda kw v => [kw; v]
  | Grd kw v1 v2 => [kw; v1; v2]
  | Flag kw => [kw]
  end.

Section Scan.

Context {F : Type}.
Variable py_float : string -> option F.
Variable py_int : string -> option Z.

Local Abbreviation header := (@CodeV.header F).
Local Abbreviation scan := (scan py_float py_int).
Local Abbreviation check := (check (F := F)).
Local Abbreviation parse_header := (parse_header py_float py_int).

Definition item_ok (it : item) : Prop :=
  match it with
  | Wvl kw v => Py.upper kw = "WVL" /\ is_Some (py_float v)
  | Ssz kw v => Py.upper kw = "SSZ" /\ is_Some (py_float v)
  | Nda kw v => Py.upper kw = "NDA" /\ is_Some (py_int v)
  | Grd kw v1 v2 =>
      Py.upper kw = "GRD" /\ is_Some (py_int v1) /\ is_Some (py_int v2)
  | Flag kw => Py.upper kw = "SUR" \/ Py.upper kw = "WFR" \/ Py.upper kw = "NNB"
  end.

(** A token that is neither a keyword nor a number. *)
Definition unrecognized (tok : string) : Prop :=
  keyword (Py.upper tok) = false /\ py_float tok = None /\ py_int tok = None.

Ltac case_keyword tok :=
  destruct (String.eqb (Py.upper tok) "WVL") eqn:?HWVL;
  [|destruct (String.eqb (Py.upper tok) "SSZ") eqn:?HSSZ;
    [|destruct (String.eqb (Py.upper tok) "NDA") eqn:?HNDA;
      [|destruct (String.eqb (Py.upper tok) "GRD") eqn:?HGRD;
        [|destruct (String.eqb (Py.upper tok) "SUR") eqn:?HSUR;
          [|destruct (String.eqb (Py.upper tok) "WFR") eqn:?HWFR;
            [|destruct (String.eqb (Py.upper tok) "NNB") eqn:?HNNB]]]]]].

Lemma keyword_false (u : string) :
  keyword u = false ->
  String.eqb u "WVL" = false /\ String.eqb u "SSZ" = false /\
  String.eqb u "NDA" = false /\ String.eqb u "GRD" = false /\
  String.eqb u "SUR" = false /\ String.eqb u "WFR" = false /\
  String.eqb u "NNB" = false.
Proof.
  unfold keyword. cbn [existsb]. intros H.
  repeat (apply orb_false_iff in H; destruct H as [? H]).
  repeat split; assumption.
Qed.

(** At the place of a keyword, a token outside the table stops the scan
    with the error that quotes it. *)
Lemma scan_unknown (tok : string) (rest : list string) (st : header) :
  keyword (Py.upper tok) = false ->
  scan (tok :: rest) st =
  Raise (ValueError
    ("parsing CV INT header: token " +:+ tok +:+ " not understood")).
Proof.
  intros H. apply keyword_false in H.
  destruct H as (H1 & H2 & H3 & H4 & H5 & H6 & H7).
  cbn [CodeV.scan]. now rewrite H1, H2, H3, H4, H5, H6, H7.
Qed.

Lemma to_float_some (v : string) :
  is_Some (py_float v) -> exists x, to_float py_float v = Ok x.
Proof. intros [x Hx]. exists x. unfold to_float. now rewrite Hx. Qed.

Lemma to_int_some (v : string) :
  is_Some (py_int v) -> exists x, to_int py_int v = Ok x.
Proof. intros [x Hx]. exists x. unfold to_int. now rewrite Hx. Qed.

(** One well-formed item is consumed whole. *)
Lemma scan_item (it : item) (rest : list string) (st : header) :
  item_ok it -> exists st', scan (item_tokens it ++ rest) st = scan rest st'.
Proof.
  destruct it as [kw v|kw v|kw v|kw v1 v2|kw]; cbn [item_ok item_tokens app].
  - intros [Hkw Hv]. destruct (to_float_some v Hv) as [x Hx].
    cbn [CodeV.scan]. rewrite Hkw, Hx. cbn. eauto.
  - intros [Hkw Hv]. destruct (to_float_some v Hv) as [x Hx].
    cbn [CodeV.scan]. rewrite Hkw, Hx. cbn. eauto.
  - intros [Hkw Hv]. destruct (to_int_some v Hv) as [x Hx].
    cbn [CodeV.scan]. rewrite Hkw, Hx. cbn. eauto.
  - intros (Hkw & Hv1 & Hv2).
    destruct (to_int_some v1 Hv1) as [x1 Hx1].
    destruct (to_int_some v2 Hv2) as [x2 Hx2].
    cbn [CodeV.scan]. rewrite Hkw, Hx1. cbn. rewrite Hx2. cbn. eauto.
  - intros [Hkw|[Hkw|Hkw]]; cbn [CodeV.scan]; rewrite Hkw; cbn; eauto.
Qed.

Lemma scan_items (items : list item) (rest : list string) (st : header) :
  Forall item_ok items ->
  exists st', scan (concat (map item_tokens items) ++ rest) st = scan rest st'.
Proof.
  intros Hok. revert st.
  induction Hok as [|it items Hit _ IH]; intros st; cbn [map concat].
  - exists st. reflexivity.
  - rewrite <- app_assoc.
    destruct (scan_item it (concat (map item_tokens items) ++ rest) st Hit)
      as [st1 ->].
    apply IH.
Qed.

Lemma names_unknown (tok : string) :
  names ("parsing CV INT header: token " +:+ tok +:+ " not understood") tok.
Proof.
  exists "parsing CV INT header: token ", " not understood". reflexivity.
Qed.

Lemma names_float (tok : string) :
  names ("could not convert string to float: " +:+ Py.repr tok) tok.
Proof.
  exists "could not convert string to float: '", "'". reflexivity.
Qed.

Lemma names_int (tok : string) :
  names ("invalid literal for int() with base 10: " +:+ Py.repr tok) tok.
Proof.
  exists "invalid literal for int() with base 10: '", "'". reflexivity.
Qed.

Lemma to_float_none (t : string) :
  py_float t = None ->
  exists msg, to_float py_float t = Raise (ValueError msg) /\ names msg t.
Proof.
  intros H. unfold to_float. rewrite H. eexists. split; [reflexivity|].
  apply names_float.
Qed.

Lemma to_int_none (t : string) :
  py_int t = None ->
  exists msg, to_int py_int t = Raise (ValueError msg) /\ names msg t.
Proof.
  intros H. unfold to_int. rewrite H. eexists. split; [reflexivity|].
  apply names_int.
Qed.

Lemma to_float_cases (v : string) :
  (exists x, to_float py_float v = Ok x) \/
  (exists msg, to_float py_float v = Raise (ValueError msg)).
Proof. unfold to_float. destruct (py_float v); eauto. Qed.

Lemma to_int_cases (v : string) :
  (exists x, to_int py_int v = Ok x) \/
  (exists msg, to_int py_int v = Raise (ValueError msg)).
Proof. unfold to_int. destruct (py_int v); eauto. Qed.

(** Wherever the scan meets it, a token that is neither a keyword nor a
    number stops the scan with a [ValueError] that quotes it, provided no
    [ValueError] is due to the tokens before it. *)
Lemma scan_stops_at (k : nat) :
  forall (pre : list string) (t : string) (post : list string) (st : header),
    (List.length pre <= k)%nat ->
    unrecognized t ->
    (forall msg, scan pre st <> Raise (ValueError msg)) ->
    exists msg,
      scan (pre ++ t :: post) st = Raise (ValueError msg) /\ names msg t.
Proof.
  induction k as [|k IH]; intros pre t post st Hlen Hun Hpre.
  - destruct pre; [|cbn in Hlen; lia]. cbn [app].
    destruct Hun as [Hkw _]. rewrite (scan_unknown _ _ _ Hkw).
    eexists; split; [reflexivity|apply names_unknown].
  - destruct pre as [|tok rest].
    { apply (IH [] t post st); [cbn; lia|assumption|assumption]. }
    pose proof Hun as (Hkw & Hf & Hi).
    cbn [app]. cbn [CodeV.scan] in Hpre |- *.
    case_keyword tok.
    + destruct rest as [|v rest']; cbn [app].
      * destruct (to_float_none t Hf) as (msg & -> & Hn). cbn. eauto.
      * destruct (to_float_cases v) as [[x Hx]|[msg Hx]]; rewrite Hx in *.
        -- cbn [bind] in *. apply IH; [cbn in Hlen; lia|assumption|assumption].
        -- exfalso. eapply Hpre. reflexivity.
    + destruct rest as [|v rest']; cbn [app].
      * destruct (to_float_none t Hf) as (msg & -> & Hn). cbn. eauto.
      * destruct (to_float_cases v) as [[x Hx]|[msg Hx]]; rewrite Hx in *.
        -- cbn [bind] in *. apply IH; [cbn in Hlen; lia|assumption|assumption].
        -- exfalso. eapply Hpre. reflexivity.
    + destruct rest as [|v rest']; cbn [app].
      * destruct (to_int_none t Hi) as (msg & -> & Hn). cbn. eauto.
      * destruct (to_int_cases v) as [[x Hx]|[msg Hx]]; rewrite Hx in *.
        -- cbn [bind] in *. apply IH; [cbn in Hlen; lia|assumption|assumption].
        -- exfalso. eapply Hpre. reflexivity.
    + destruct rest as [|v1 rest1]; cbn [app].
      * destruct (to_int_none t Hi) as (msg & -> & Hn). cbn. eauto.
      * destruct (to_int_cases v1) as [[x1 Hx1]|[msg Hx1]]; rewrite Hx1 in *;
          cbn [bind] in *.
        2:{ exfalso. eapply Hpre. reflexivity. }
        destruct rest1 as [|v2 rest2]; cbn [app].
        -- destruct (to_int_none t Hi) as (msg & -> & Hn). cbn. eauto.
        -- destruct (to_int_cases v2) as [[x2 Hx2]|[msg Hx2]];
             rewrite Hx2 in *; cbn [bind] in *.
           ++ apply IH; [cbn in Hlen; lia|assumption|assumption].
           ++ exfalso. eapply Hpre. reflexivity.
    + apply IH; [cbn in Hlen; lia|assumption|assumption].
    + apply IH; [cbn in Hlen; lia|assumption|assumption].
    + apply IH; [cbn in Hlen; lia|assumption|assumption].
    + exfalso. eapply Hpre. reflexivity.
Qed.

(** C8: a header made of recognized items only is scanned without error;
    after such items, a token that is not a keyword stops the scan with the
    [ValueError] of the parser, which quotes it; and wherever a token that
    is neither a keyword nor a number stands, the scan stops with a
    [ValueError] that quotes it (at the place of a value the error is that
    of [float] or [int]), provided the tokens before it raise none. *)
Theorem header_scan_accepts_known_rejects_unknown :
  (forall items,
      Forall item_ok items ->
      exists st, scan (concat (map item_tokens items)) header0 = Ok st) /\
  (forall items t post,
      Forall item_ok items ->
      keyword (Py.upper t) = false ->
      scan (concat (map item_tokens items) ++ t :: post) header0 =
      Raise (ValueError
        ("parsing CV INT header: token " +:+ t +:+ " not understood"))) /\
  (forall pre t post,
      unrecognized t ->
      (forall msg, scan pre header0 <> Raise (ValueError msg)) ->
      exists msg,
        scan (pre ++ t :: post) header0 = Raise (ValueError msg) /\
        names msg t).
Proof.
  split; [|split].
  - intros items Hok.
    destruct (scan_items items [] header0 Hok) as [st Hst].
    rewrite app_nil_r in Hst. exists st. now rewrite Hst.
  - intros items t post Hok Hkw.
    destruct (scan_items items (t :: post) header0 Hok) as [st ->].
    now apply scan_unknown.
  - intros pre t post Hun Hpre.
    now apply (scan_stops_at (List.length pre)).
Qed.

(** The scan binds [m] and [n] together, to integers. *)
Definition grd_inv (st : header) : Prop :=
  (m st = Unbound /\ n st = Unbound) \/
  (exists a b, m st = Bound (Some a) /\ n st = Bound (Some b)).

Lemma scan_grd_inv (k : nat) :
  forall (params : list string) (st st' : header),
    (List.length params <= k)%nat ->
    grd_inv st -> scan params st = Ok st' -> grd_inv st'.
Proof.
  induction k as [|k IH]; intros params st st' Hlen Hinv Hscan.
  - destruct params; [|cbn in Hlen; lia]. cbn in Hscan. congruence.
  - destruct params as [|tok rest]; [cbn in Hscan; congruence|].
    cbn [CodeV.scan] in Hscan. cbn in Hlen.
    case_keyword tok.
    + destruct rest as [|v rest']; [discriminate|].
      destruct (to_float py_float v); [|discriminate]. cbn [bind] in Hscan.
      eapply (IH rest'); [cbn in Hlen; lia| |eassumption]. exact Hinv.
    + destruct rest as [|v rest']; [discriminate|].
      destruct (to_float py_float v); [|discriminate]. cbn [bind] in Hscan.
      eapply (IH rest'); [cbn in Hlen; lia| |eassumption]. exact Hinv.
    + destruct rest as [|v rest']; [discriminate|].
      destruct (to_int py_int v); [|discriminate]. cbn [bind] in Hscan.
      eapply (IH rest'); [cbn in Hlen; lia| |eassumption]. exact Hinv.
    + destruct rest as [|v1 rest1]; [discriminate|].
      destruct (to_int py_int v1); [|discriminate]. cbn [bind] in Hscan.
      destruct rest1 as [|v2 rest2]; [discriminate|].
      destruct (to_int py_int v2); [|discriminate]. cbn [bind] in Hscan.
      eapply (IH rest2); [cbn in Hlen; lia| |eassumption].
      right. cbn. eauto.
    + eapply (IH rest); [lia| |eassumption]. exact Hinv.
    + eapply (IH rest); [lia| |eassumption]. exact Hinv.
    + eapply (IH rest); [lia| |eassumption]. exact Hinv.
    + discriminate.
Qed.

(** What the three checks do on a state of the scan: the third one raises
    [UnboundLocalError] when [GRD] was not met, and passes otherwise. *)
Lemma check_outcomes (st : header) :
  grd_inv st ->
  check st =
  match wvl st, nda st, m st with
  | None, _, _ => Raise (ValueError "CV INT header did not contain WVL")
  | Some _, None, _ =>
      Raise (ValueError "CV INT (GRID) header did not contain NDA")
  | Some _, Some _, Unbound => Raise (UnboundLocalError "m")
  | Some _, Some _, Bound _ => Ok st
  end.
Proof.
  intros [[Hm Hn]|(a & b & Hm & Hn)]; unfold CodeV.check;
    destruct (wvl st); try reflexivity;
    destruct (nda st); try reflexivity;
    rewrite Hm, Hn; reflexivity.
Qed.

Definition GRD_error : exn :=
  ValueError
    "CV INT header did not contain GRD, only grid INT files are supported".

Lemma scan_not_GRD_error (k : nat) :
  forall (params : list string) (st : header),
    (List.length params <= k)%nat -> scan params st <> Raise GRD_error.
Proof.
  induction k as [|k IH]; intros params st Hlen Hscan.
  - destruct params; [discriminate|cbn in Hlen; lia].
  - destruct params as [|tok rest]; [discriminate|].
    cbn [CodeV.scan] in Hscan. cbn in Hlen.
    case_keyword tok.
    + destruct rest as [|v rest']; [discriminate|].
      unfold to_float in Hscan. destruct (py_float v); [|discriminate].
      cbn [bind] in Hscan. eapply (IH rest'); [|exact Hscan]. cbn in Hlen. lia.
    + destruct rest as [|v rest']; [discriminate|].
      unfold to_float in Hscan. destruct (py_float v); [|discriminate].
      cbn [bind] in Hscan. eapply (IH rest'); [|exact Hscan]. cbn in Hlen. lia.
    + destruct rest as [|v rest']; [discriminate|].
      unfold to_int in Hscan. destruct (py_int v); [|discriminate].
      cbn [bind] in Hscan. eapply (IH rest'); [|exact Hscan]. cbn in Hlen. lia.
    + destruct rest as [|v1 rest1]; [discriminate|].
      unfold to_int in Hscan. destruct (py_int v1); [|discriminate].
      cbn [bind] in Hscan.
      destruct rest1 as [|v2 rest2]; [discriminate|].
      destruct (py_int v2); [|discriminate].
      cbn [bind] in Hscan. eapply (IH rest2); [|exact Hscan]. cbn in Hlen. lia.
    + eapply (IH rest); [|exact Hscan]. lia.
    + eapply (IH rest); [|exact Hscan]. lia.
    + eapply (IH rest); [|exact Hscan]. lia.
    + discriminate.
Qed.

(** The error that names [GRD] is never raised. *)
Lemma GRD_error_unreachable (hdr : string) :
  parse_header hdr <> Raise GRD_error.
Proof.
  unfold CodeV.parse_header.
  destruct (scan (Py.split_ws hdr) header0) as [st|e] eqn:Hscan.
  - cbn [bind]. rewrite check_outcomes.
    + destruct (wvl st); [|discriminate].
      destruct (nda st); [|discriminate].
      destruct (m st); discriminate.
    + eapply scan_grd_inv; [reflexivity| |exact Hscan]. left. split; reflexivity.
  - cbn [bind]. intros [= ->].
    eapply scan_not_GRD_error; [reflexivity|exact Hscan].
Qed.

(** A header that has [WVL] and [NDA] and no [GRD] token fails on the
    read of the local [m]. *)
Lemma scan_without_GRD (k : nat) :
  forall (params : list string) (st st' : header),
    (List.length params <= k)%nat ->
    Forall (fun t => Py.upper t <> "GRD") params ->
    scan params st = Ok st' -> m st' = m st.
Proof.
  induction k as [|k IH]; intros params st st' Hlen Hno Hscan.
  - destruct params; [|cbn in Hlen; lia]. cbn in Hscan. congruence.
  - destruct params as [|tok rest]; [cbn in Hscan; congruence|].
    cbn [CodeV.scan] in Hscan. cbn in Hlen.
    apply Forall_cons_iff in Hno as [Htok Hrest].
    case_keyword tok.
    + destruct rest as [|v rest']; [discriminate|].
      destruct (to_float py_float v); [|discriminate]. cbn [bind] in Hscan.
      apply Forall_cons_iff in Hrest as [_ Hrest].
      apply (IH rest' _ st') in Hscan; [exact Hscan|cbn in Hlen; lia|exact Hrest].
    + destruct rest as [|v rest']; [discriminate|].
      destruct (to_float py_float v); [|discriminate]. cbn [bind] in Hscan.
      apply Forall_cons_iff in Hrest as [_ Hrest].
      apply (IH rest' _ st') in Hscan; [exact Hscan|cbn in Hlen; lia|exact Hrest].
    + destruct rest as [|v rest']; [discriminate|].
      destruct (to_int py_int v); [|discriminate]. cbn [bind] in Hscan.
      apply Forall_cons_iff in Hrest as [_ Hrest].
      apply (IH rest' _ st') in Hscan; [exact Hscan|cbn in Hlen; lia|exact Hrest].
    + apply String.eqb_eq in HGRD. contradiction.
    + apply (IH rest _ st') in Hscan; [exact Hscan|lia|exact Hrest].
    + apply (IH rest _ st') in Hscan; [exact Hscan|lia|exact Hrest].
    + apply (IH rest _ st') in Hscan; [exact Hscan|lia|exact Hrest].
    + discriminate.
Qed.

Lemma header_without_GRD (hdr : string) (st : header) :
  scan (Py.split_ws hdr) header0 = Ok st ->
  Forall (fun t => Py.upper t <> "GRD") (Py.split_ws hdr) ->
  wvl st <> None -> nda st <> None ->
  parse_header hdr = Raise (UnboundLocalError "m").
Proof.
  intros Hscan Hno Hw Hn. unfold CodeV.parse_header. rewrite Hscan.
  cbn [bind]. rewrite check_outcomes.
  - destruct (wvl st); [|contradiction]. destruct (nda st); [|contradiction].
    now rewrite (scan_without_GRD _ _ _ _ (Nat.le_refl _) Hno Hscan).
  - eapply scan_grd_inv; [reflexivity| |exact Hscan]. left. split; reflexivity.
Qed.

End Scan.

(** *** The comment loop ends *)

Lemma length_drop (k : nat) (s : string) :
  String.length (Py.drop k s) = (String.length s - k)%nat.
Proof.
  revert s; induction k as [|k IH]; intros s; cbn.
  - lia.
  - destruct s as [|c s']; cbn; [reflexivity|apply IH].
Qed.

Lemma length_slice_from (s : string) (a : Z) :
  1 <= a -> s <> "" ->
  (String.length (Py.slice_from s a) < String.length s)%nat.
Proof.
  intros Ha Hs. unfold Py.slice_from, Py.clip. rewrite length_drop.
  destruct s as [|c s']; [contradiction|]. cbn [String.length].
  destruct (a <? 0) eqn:Hneg; lia.
Qed.

Lemma drop_empty (k : nat) : Py.drop k "" = "".
Proof. destruct k; reflexivity. Qed.

Lemma take_empty (k : nat) : Py.take k "" = "".
Proof. destruct k; reflexivity. Qed.

Lemma find_empty (sub : string) : sub <> "" -> Py.find "" sub = -1.
Proof. intros H. destruct sub; [contradiction|reflexivity]. Qed.

(** With more fuel than characters the loop reaches its [break] or its
    [raise]. *)
Lemma skip_comments_ends (fuel : nat) :
  forall (end_ : Z) (txt : string),
    (String.length txt < fuel)%nat ->
    exists r, skip_comments fuel end_ txt = Some r.
Proof.
  induction fuel as [|fuel IH]; intros end_ txt Hfuel; [lia|].
  cbn [skip_comments].
  set (e := if Z.of_nat (String.length txt) <? end_ then _ else _).
  destruct (Py.find (Py.slice_to txt e) "!" <? 0) eqn:Hbang; [eauto|].
  set (i := Py.find_from txt Py.newline _).
  destruct (i <? 0) eqn:Hi; [eauto|].
  apply IH.
  destruct txt as [|c txt'].
  - unfold Py.slice_to, Py.slice in Hbang.
    rewrite drop_empty, take_empty in Hbang. discriminate.
  - pose proof (length_slice_from (String c txt') (i + 1)) as Hlt.
    apply Z.ltb_ge in Hi.
    assert (String.length (Py.slice_from (String c txt') (i + 1))
            < String.length (String c txt'))%nat
      by (apply Hlt; [lia|discriminate]).
    lia.
Qed.

Lemma read_codev_gridint_returns {F : Type} (py_float : string -> option F)
    (py_int : string -> option Z) (txt : string) :
  exists r, read_codev_gridint py_float py_int txt = Some r.
Proof.
  unfold read_codev_gridint.
  destruct (skip_comments_ends (S (String.length txt)) 80 txt) as [r ->];
    [lia|].
  destruct r as [txt'|e]; [|eauto].
  destruct (Py.find txt' Py.newline <? 0); eauto.
Qed.

(** A file whose header has [WVL], [SSZ] and [NDA] but no [GRD]. *)
Definition file_of_header (hdr : string) : string :=
  "title" +:+ Py.newline +:+ hdr +:+ Py.newline +:+ "0 1 2 3" +:+ Py.newline.

(** C5, on the code: a header without [WVL] and one without [NDA] fail
    with the [ValueError] that names the token, but a header without [GRD]
    fails on the read of the local [m], which only [GRD] assigns: the
    error is an [UnboundLocalError] and does not name [GRD]. *)
Theorem missing_GRD_raises_unbound_local :
  read_codev_gridint Instances.dec_float Instances.dec_int
    (file_of_header "GRD 2 2 SUR SSZ 2 NDA -32768") =
  Some (Raise (ValueError "CV INT header did not contain WVL")) /\
  read_codev_gridint Instances.dec_float Instances.dec_int
    (file_of_header "GRD 2 2 SUR WVL 1.0 SSZ 2") =
  Some (Raise (ValueError "CV INT (GRID) header did not contain NDA")) /\
  read_codev_gridint Instances.dec_float Instances.dec_int
    (file_of_header "WVL 1.0 SSZ 2 NDA -32768") =
  Some (Raise (UnboundLocalError "m")).
Proof. repeat split; vm_compute; reflexivity. Qed.

Lemma header_scan_witness :
  (exists st,
      scan Instances.dec_float Instances.dec_int
        ["grd"; "2"; "2"; "SUR"; "WVL"; "1.0"; "SSZ"; "2"; "NDA"; "-32768"]
        header0 = Ok st) /\
  scan Instances.dec_float Instances.dec_int
    ["GRD"; "2"; "2"; "FOO"; "WVL"; "1.0"] header0 =
  Raise (ValueError "parsing CV INT header: token FOO not understood") /\
  (exists msg,
      scan Instances.dec_float Instances.dec_int
        ["GRD"; "2"; "2"; "WVL"; "FOO"; "1.0"] header0 =
      Raise (ValueError msg) /\ names msg "FOO").
Proof.
  pose proof (header_scan_accepts_known_rejects_unknown
                Instances.dec_float Instances.dec_int) as (Ha & Hb & Hc).
  split; [|split].
  - apply (Ha [Grd "grd" "2" "2"; Flag "SUR"; Wvl "WVL" "1.0";
               Ssz "SSZ" "2"; Nda "NDA" "-32768"]).
    repeat constructor; cbn; eauto.
  - apply (Hb [Grd "GRD" "2" "2"] "FOO" ["WVL"; "1.0"]).
    + repeat constructor; cbn; eauto.
    + reflexivity.
  - apply (Hc ["GRD"; "2"; "2"; "WVL"] "FOO" ["1.0"]).
    + repeat split; reflexivity.
    + intros msg. vm_compute. discriminate.
Defined.

End CodeVReaderFacts.

(** ** The Trioptics switchboard *)

Module SwitchboardFacts.
Import Trioptics.

(** The labels of the switchboard whose value is [NotImplemented]. *)
Definition not_implemented_labels : list string :=
  ["Distortion"; "Axial Color"; "Lateral Color"].

Definition not_callable : exn :=
  TypeError "'NotImplementedType' object is not callable".

(** The error of a call that failed because the callee is not a
    function, as opposed to an error raised for the label. *)
Definition failed_call (e : exn) : Prop := exists msg, e = TypeError msg.

Section Dispatch.

Context {R : Type}.
Variable read_trioptics_mtf_vs_field : string -> bool -> result R.

Local Abbreviation dispatch := (dispatch read_trioptics_mtf_vs_field).

Lemma dispatch_handler (data : string) (metadata : bool) :
  dispatch "MTF vs. Field" data metadata =
  read_trioptics_mtf_vs_field data metadata.
Proof. reflexivity. Qed.

Lemma dispatch_not_implemented (type_ data : string) (metadata : bool) :
  In type_ not_implemented_labels ->
  dispatch type_ data metadata = Raise not_callable.
Proof.
  intros [<-|[<-|[<-|[]]]]; reflexivity.
Qed.

Lemma dispatch_absent (type_ data : string) (metadata : bool) :
  type_ <> "MTF vs. Field" -> ~ In type_ not_implemented_labels ->
  dispatch type_ data metadata = Raise (KeyError type_).
Proof.
  intros Hmtf Hni. unfold Trioptics.dispatch, TRIOPTICS_SWITCHBOARD.
  assert (Hd : type_ <> "Distortion") by (intros ->; apply Hni; cbn; auto).
  assert (Ha : type_ <> "Axial Color") by (intros ->; apply Hni; cbn; auto).
  assert (Hl : type_ <> "Lateral Color") by (intros ->; apply Hni; cbn; auto).
  rewrite !lookup_insert_ne by congruence.
  rewrite lookup_singleton_ne by congruence. reflexivity.
Qed.

(** C4, as the code has it: a label mapped to a function runs that
    function; a label mapped to [NotImplemented] fails in the call, with
    the [TypeError] of calling what is not callable; a label that is not
    a key fails in the subscript, with a [KeyError].  The three outcomes
    differ, the last two by the class of the exception. *)
Theorem dispatch_three_outcomes (type_ data : string) (metadata : bool) :
  (type_ = "MTF vs. Field" ->
   dispatch type_ data metadata = read_trioptics_mtf_vs_field data metadata) /\
  (In type_ not_implemented_labels ->
   dispatch type_ data metadata = Raise not_callable) /\
  (type_ <> "MTF vs. Field" -> ~ In type_ not_implemented_labels ->
   dispatch type_ data metadata = Raise (KeyError type_)) /\
  not_callable <> KeyError type_.
Proof.
  split; [intros ->; apply dispatch_handler|].
  split; [apply dispatch_not_implemented|].
  split; [apply dispatch_absent|discriminate].
Qed.

End Dispatch.

Definition demo_reader (data : string) (metadata : bool) : result string :=
  Ok ("read " +:+ data).

Lemma dispatch_three_outcomes_witness :
  dispatch demo_reader "MTF vs. Field" "x" false = Ok "read x" /\
  dispatch demo_reader "Distortion" "x" false = Raise not_callable /\
  dispatch demo_reader "Coma" "x" false = Raise (KeyError "Coma").
Proof.
  split; [|split].
  - apply (dispatch_three_outcomes demo_reader "MTF vs. Field" "x" false).
    reflexivity.
  - apply (dispatch_three_outcomes demo_reader "Distortion" "x" false).
    cbn. auto.
  - apply (dispatch_three_outcomes demo_reader "Coma" "x" false).
    + discriminate.
    + cbn. intros [H|[H|[H|[]]]]; discriminate.
Defined.

(** C4, as stated, fails on ['Distortion']: the error is the [TypeError] of
    the failed call, no error of its own. *)
Lemma distortion_is_a_failed_call :
  exists e,
    dispatch demo_reader "Distortion" "x" false = Raise e /\ failed_call e.
Proof.
  exists not_callable. split; [reflexivity|]. unfold failed_call, not_callable.
  eauto.
Qed.

End SwitchboardFacts.

(** ** The MTF-Lab v5 reader *)

Module V5Facts.
Import Trioptics.

Definition close_marker : string := "<!-- close certificate table -->".

(** *** Strings *)

Lemma length_append (s u : string) :
  String.length (s +:+ u) = (String.length s + String.length u)%nat.
Proof.
  induction s as [|c s IH]; [reflexivity|].
  change (S (String.length (s +:+ u)) = S (String.length s + String.length u)).
  now f_equal.
Qed.

Lemma take_app (s u : string) : Py.take (String.length s) (s +:+ u) = s.
Proof.
  induction s as [|c s IH]; [now destruct u|].
  change (String c (Py.take (String.length s) (s +:+ u)) = String c s).
  now f_equal.
Qed.

Lemma slice_to_take (s : string) (b : Z) :
  Py.slice_to s b = Py.take (Py.clip (Z.of_nat (String.length s)) b) s.
Proof.
  unfold Py.slice_to, Py.slice.
  replace (Py.clip (Z.of_nat (String.length s)) 0) with 0%nat
    by (unfold Py.clip; cbn; lia).
  now rewrite Nat.sub_0_r.
Qed.

(** [(s + c)[:-1]] and [(s + u)[:len(s)]] are [s]. *)
Lemma slice_to_minus_one (s : string) (c : ascii) :
  Py.slice_to (s +:+ String c "") (-1) = s.
Proof.
  rewrite slice_to_take, length_append. cbn [String.length].
  replace (Py.clip _ (-1)) with (String.length s)
    by (unfold Py.clip; cbn [Z.ltb Z.compare]; lia).
  apply take_app.
Qed.

Lemma slice_to_length (s u : string) :
  Py.slice_to (s +:+ u) (Z.of_nat (String.length s)) = s.
Proof.
  rewrite slice_to_take, length_append.
  replace (Py.clip _ _) with (String.length s).
  - apply take_app.
  - unfold Py.clip. destruct (Z.of_nat (String.length s) <? 0) eqn:H; lia.
Qed.

Lemma startswith_app_self (p u : string) : Py.startswith (p +:+ u) p = true.
Proof.
  induction p as [|a p IH]; [reflexivity|].
  change (Ascii.eqb a a && Py.startswith (p +:+ u) p = true).
  now rewrite Ascii.eqb_refl.
Qed.

Lemma startswith_app_r (q u v : string) :
  Py.startswith u q = true -> Py.startswith (u +:+ v) q = true.
Proof.
  revert u; induction q as [|x q IH]; intros u H; [reflexivity|].
  destruct u as [|y u]; [discriminate|].
  change (Ascii.eqb x y && Py.startswith u q = true) in H.
  change (Ascii.eqb x y && Py.startswith (u +:+ v) q = true).
  apply andb_true_iff in H as [Hxy Hq]. rewrite Hxy. now apply IH.
Qed.

Fixpoint no_char (x : ascii) (q : string) : bool :=
  match q with
  | EmptyString => true
  | String y q' => negb (Ascii.eqb x y) && no_char x q'
  end.

(** A string without [x] that starts [u + x...] lies within [u]. *)
Lemma startswith_before_char (x : ascii) (q u w : string) :
  no_char x q = true ->
  Py.startswith (u +:+ String x w) q = true -> Py.startswith u q = true.
Proof.
  revert u; induction q as [|y q IH]; intros u Hno H; [reflexivity|].
  cbn [no_char] in Hno. apply andb_true_iff in Hno as [Hxy Hq].
  destruct u as [|z u].
  - change (Ascii.eqb y x && Py.startswith w q = true) in H.
    apply andb_true_iff in H as [Hyx _].
    rewrite Ascii.eqb_sym, Hyx in Hxy. discriminate.
  - change (Ascii.eqb y z && Py.startswith (u +:+ String x w) q = true) in H.
    change (Ascii.eqb y z && Py.startswith u q = true).
    apply andb_true_iff in H as [Hyz Hq']. rewrite Hyz. now apply IH.
Qed.

(** The first place of a marker [x q], where [x] does not come back in
    [q], in a text that has the marker after [t]: it is the end of [t]
    when [t] and one more character hold no marker. *)
Lemma index_of_marker (x : ascii) (q t rest : string) (c : ascii) :
  no_char x q = true ->
  Py.index_of (String x q) (t +:+ String c "") = None ->
  Py.index_of (String x q) (t +:+ String x q +:+ rest)
  = Some (String.length t).
Proof.
  intros Hno. induction t as [|a t IH]; intros Hnone.
  - change ("" +:+ String x q +:+ rest) with (String x q +:+ rest).
    destruct (String x q +:+ rest) eqn:E; [discriminate|].
    cbn [Py.index_of]. rewrite <- E, startswith_app_self. reflexivity.
  - change (String a t +:+ String c "") with (String a (t +:+ String c ""))
      in Hnone.
    change (String a t +:+ String x q +:+ rest)
      with (String a (t +:+ String x q +:+ rest)).
    cbn [Py.index_of] in Hnone |- *.
    destruct (Py.startswith (String a (t +:+ String c "")) (String x q))
      eqn:Hp; [discriminate|].
    destruct (Py.index_of (String x q) (t +:+ String c "")) eqn:Hi;
      [discriminate|].
    rewrite (IH eq_refl). cbn [option_map String.length].
    destruct (Py.startswith (String a (t +:+ String x q +:+ rest))
                (String x q)) eqn:Hp'; [|reflexivity].
    exfalso.
    change (Ascii.eqb x a && Py.startswith (t +:+ String c "") q = false)
      in Hp.
    change (Ascii.eqb x a
            && Py.startswith (t +:+ String x (q +:+ rest)) q = true) in Hp'.
    apply andb_true_iff in Hp' as [Hxa Hq'].
    apply startswith_before_char in Hq'; [|assumption].
    apply (startswith_app_r _ _ (String c "")) in Hq'.
    rewrite Hxa, Hq' in Hp. discriminate.
Qed.

Section V5.

Variable py_float : string -> option Q.
Context {Meta : Type}.
Variable parse_metadata : string -> result Meta.

Local Abbreviation read_v5 :=
  (read_trioptics_mtf_vs_field_mtflab_v5 py_float parse_metadata).

(** C6, as the code has it: a report [t + c] without the closing marker of
    the certificate table raises no error for the missing marker:
    [find] returns -1, the slice [[:-1]] drops the last character [c],
    and the reader returns what it returns for the report that has the
    marker after [t]. *)
Theorem missing_close_marker_is_not_detected (t rest : string) (c : ascii) :
  Py.find (t +:+ String c "") close_marker = -1 ->
  read_v5 (t +:+ String c "") false
  = read_v5 (t +:+ close_marker +:+ rest) false.
Proof.
  intros Hfind.
  unfold read_trioptics_mtf_vs_field_mtflab_v5. cbn [bind].
  fold close_marker. rewrite Hfind, slice_to_minus_one.
  assert (Hnone : Py.index_of close_marker (t +:+ String c "") = None).
  { unfold Py.find in Hfind.
    destruct (Py.index_of close_marker (t +:+ String c "")); [lia|reflexivity]. }
  unfold Py.find. unfold close_marker in Hnone |- *.
  rewrite (index_of_marker "<"%char "!-- close certificate table -->"
             t rest c eq_refl Hnone).
  fold close_marker.
  now rewrite slice_to_length.
Qed.

End V5.

(** A report in the layout that the reader expects, up to and without the
    closing marker of the certificate table. *)
Definition lines (l : list string) : string := String.concat Py.newline l.

Definition report_body : string := lines [
  "<html>";
  "<!--  begin table caption -->";
  "<table>"; "<tr>"; "<th>Image Height</th>"; "</tr>";
  "<tr>"; "<td>mm</td>"; "</tr>";
  "<td class=h>0.0</td>";
  "<td class=h>1.5</td>";
  "</table>";
  "<br>";
  "<!-- end table caption -->";
  "<!-- begin measurement data -->";
  "<tr class=r><td>Tan 10(lp/mm)</td><td>0.9</td><td>0.8</td><td></td></tr>";
  "<tr class=r><td>Sag 10(lp/mm)</td><td>0.7</td><td>0.6</td><td></td></tr>";
  "<tr class=r><td>Tan 20(lp/mm)</td><td>0.5</td><td>0.4</td><td></td></tr>";
  "<tr class=r><td>Sag 20(lp/mm)</td><td>0.3</td><td>0.2</td><td></td></tr>";
  "<!-- end measurement data -->";
  "</table>" ].

Definition report_without_close : string := report_body +:+ Py.newline.

Definition no_metadata (file_contents : string) : result unit := Ok tt.

(** C6, as stated, fails: the report has no closing marker of the
    certificate table, and the reader raises nothing and returns the
    whole record. *)
Lemma report_without_close_marker_is_read :
  Py.find report_without_close close_marker = -1 /\
  read_trioptics_mtf_vs_field_mtflab_v5 Instances.dec_float no_metadata
    report_without_close false =
  Ok {| tan := [[9 # 10; 8 # 10]; [5 # 10; 4 # 10]]%Q;
        sag := [[7 # 10; 6 # 10]; [3 # 10; 2 # 10]]%Q;
        field := [0 # 10; 15 # 10]%Q;
        freq := [10 # 1; 20 # 1]%Q;
        mdata := None |}.
Proof. split; vm_compute; reflexivity. Qed.

Lemma missing_close_marker_witness :
  read_trioptics_mtf_vs_field_mtflab_v5 Instances.dec_float no_metadata
    report_without_close false =
  read_trioptics_mtf_vs_field_mtflab_v5 Instances.dec_float no_metadata
    (report_body +:+ close_marker +:+ "</html>") false.
Proof.
  apply (missing_close_marker_is_not_detected Instances.dec_float no_metadata
           report_body "</html>" (ascii_of_nat 10)).
  vm_compute. reflexivity.
Defined.

End V5Facts.

(** ** Arrays *)

Module ArrayFacts.

Lemma reshape_nth {A} (r c i : nat) (flat : list A) :
  (i < r)%nat ->
  nth i (Np.reshape r c flat) [] = firstn c (skipn (i * c) flat).
Proof.
  revert i flat; induction r as [|r IH]; intros i flat Hi; [lia|].
  destruct i as [|i]; cbn [Np.reshape nth].
  - reflexivity.
  - rewrite IH by lia. rewrite skipn_skipn. f_equal. f_equal. lia.
Qed.

Lemma nth_firstn {A} (n i : nat) (l : list A) (d : A) :
  (i < n)%nat -> nth i (firstn n l) d = nth i l d.
Proof.
  revert i l; induction n as [|n IH]; intros i l Hi; [lia|].
  destruct l as [|x l]; [now destruct i|].
  destruct i as [|i]; cbn; [reflexivity|apply IH; lia].
Qed.

Lemma nth_skipn {A} (k i : nat) (l : list A) (d : A) :
  nth i (skipn k l) d = nth (k + i) l d.
Proof.
  revert l; induction k as [|k IH]; intros l; [reflexivity|].
  destruct l as [|x l]; [now destruct i|]. cbn. apply IH.
Qed.

(** The entry [(i, j)] of [flat.reshape((r, c))] is [flat[i*c + j]]. *)
Lemma reshape_entry {A} (r c i j : nat) (flat : list A) (d : A) :
  (i < r)%nat -> (j < c)%nat ->
  nth j (nth i (Np.reshape r c flat) []) d = nth (i * c + j) flat d.
Proof.
  intros Hi Hj. rewrite reshape_nth by assumption.
  rewrite nth_firstn by assumption. apply nth_skipn.
Qed.

(** Reshaping the rows of a rectangular array gives the array back. *)
Lemma reshape_ravel {A} (c : nat) (a : list (list A)) :
  Forall (fun row => List.length row = c) a ->
  Np.reshape (List.length a) c (Np.ravel a) = a.
Proof.
  induction 1 as [|row a Hrow _ IH]; [reflexivity|].
  cbn [List.length Np.reshape Np.ravel concat]. subst c.
  rewrite take_app_length, drop_app_length. f_equal. exact IH.
Qed.

End ArrayFacts.

(** ** The Zygo reader *)

Module ZygoReadFacts.
Import Zygo.

(** *** Integers and bytes *)

Lemma Z_of_byte_bound (b : byte) : 0 <= Z_of_byte b < 256.
Proof.
  unfold Z_of_byte. pose proof (Byte.to_N_bounded b). lia.
Qed.

Lemma be_to_Z_snoc (bs : list byte) (b : byte) :
  be_to_Z (bs ++ [b]) = be_to_Z bs * 256 + Z_of_byte b.
Proof. unfold be_to_Z. now rewrite fold_left_app. Qed.

Lemma be_to_Z_bound (bs : list byte) :
  0 <= be_to_Z bs < 256 ^ Z.of_nat (List.length bs).
Proof.
  induction bs as [|b bs IH] using rev_ind; [cbn; lia|].
  rewrite be_to_Z_snoc, length_app. cbn [List.length].
  replace (Z.of_nat (List.length bs + 1)) with (Z.of_nat (List.length bs) + 1)
    by lia.
  rewrite Z.pow_add_r by lia.
  pose proof (Z_of_byte_bound b). nia.
Qed.

(** *** The header *)

Lemma keys_NoDup : NoDup (map fst _zygo_metadata_helper).
Proof.
  apply (bool_decide_unpack (NoDup (map fst _zygo_metadata_helper))).
  vm_compute. exact I.
Qed.

Section Meta.

Variable utf8_decode : list byte -> option string.

Local Abbreviation read_fields := (read_fields utf8_decode).
Local Abbreviation read_field := (read_field utf8_decode).
Local Abbreviation read_zygo_metadata := (read_zygo_metadata utf8_decode).

Lemma read_fields_other (tbl : list (string * (code * Z * Z * value)))
    (contents : list byte) (out meta : gmap string value) (k : string) :
  read_fields tbl contents out = Ok meta ->
  ~ In k (map fst tbl) -> meta !! k = out !! k.
Proof.
  revert out; induction tbl as [|[k0 [[[T lo] hi] d]] tbl IH];
    intros out Hread Hk.
  - cbn in Hread. congruence.
  - cbn [Zygo.read_fields] in Hread. cbn [map fst In] in Hk.
    destruct (Py.startswith k0 "__pad").
    + apply IH; [assumption|tauto].
    + destruct (read_field contents T lo hi) as [v|e]; [|discriminate].
      cbn [bind] in Hread. rewrite (IH _ Hread) by tauto.
      apply lookup_insert_ne. intros ->. tauto.
Qed.

(** Every field of the table that is not padding is in the mapping, with
    the value unpacked from its bytes. *)
Lemma read_fields_spec (tbl : list (string * (code * Z * Z * value)))
    (contents : list byte) (out meta : gmap string value)
    (k : string) (T : code) (lo hi : Z) (d : value) :
  NoDup (map fst tbl) ->
  read_fields tbl contents out = Ok meta ->
  In (k, (T, lo, hi, d)) tbl -> Py.startswith k "__pad" = false ->
  exists v, read_field contents T lo hi = Ok v /\ meta !! k = Some v.
Proof.
  revert out; induction tbl as [|[k0 [[[T0 lo0] hi0] d0]] tbl IH];
    intros out Hnd Hread Hin Hpad; [destruct Hin|].
  cbn [map fst] in Hnd. apply NoDup_cons in Hnd as [Hk0 Hnd].
  cbn [Zygo.read_fields] in Hread.
  destruct Hin as [[= -> -> -> -> ->]|Hin].
  - rewrite Hpad in Hread.
    destruct (read_field contents T lo hi) as [v|e]; [|discriminate].
    cbn [bind] in Hread. exists v. split; [reflexivity|].
    rewrite (read_fields_other _ _ _ _ k Hread).
    + apply lookup_insert_eq.
    + now rewrite <- list_elem_of_In.
  - destruct (Py.startswith k0 "__pad").
    + eapply IH; eassumption.
    + destruct (read_field contents T0 lo0 hi0) as [v0|e]; [|discriminate].
      cbn [bind] in Hread. eapply IH; eassumption.
Qed.

Lemma read_int_field (contents : list byte) (T : code) (lo hi : Z)
    (v : value) :
  match T with IB16 | IL16 | IB32 | IL32 | U8 => True | _ => False end ->
  read_field contents T lo hi = Ok v ->
  exists z, v = VInt z /\ 0 <= z < 256 ^ Z.of_nat (calcsize T).
Proof.
  intros HT. unfold Zygo.read_field, unpack.
  destruct (List.length (Py.lslice contents lo hi) =? calcsize T)%nat eqn:Hlen;
    [|discriminate].
  apply Nat.eqb_eq in Hlen. cbn [negb].
  destruct T; try contradiction; cbn [bind]; intros [= <-];
    eexists; (split; [reflexivity|]); rewrite <- Hlen;
    first [apply be_to_Z_bound
          |rewrite <- (length_rev (Py.lslice contents lo hi));
           apply be_to_Z_bound].
Qed.

Lemma read_float_field (contents : list byte) (T : code) (lo hi : Z)
    (v : value) :
  match T with FB32 | FL32 => True | _ => False end ->
  read_field contents T lo hi = Ok v -> exists x, v = VFloat x.
Proof.
  intros HT. unfold Zygo.read_field, unpack.
  destruct (negb _); [discriminate|].
  destruct T; try contradiction; cbn [bind]; intros [= <-]; eauto.
Qed.

(** The fields that [read_zygo_dat] uses. *)
Record header_view : Type := {
  v_iw : Z; v_ih : Z; v_ib : Z; v_pw : Z; v_ph : Z; v_hl : Z; v_res : Z;
  v_sf : Np.float; v_of : Np.float; v_wvl : Np.float
}.

Definition views (meta : gmap string value) (hv : header_view) : Prop :=
  meta !! "ac_width" = Some (VInt (v_iw hv)) /\
  meta !! "ac_height" = Some (VInt (v_ih hv)) /\
  meta !! "ac_n_buckets" = Some (VInt (v_ib hv)) /\
  meta !! "cn_width" = Some (VInt (v_pw hv)) /\
  meta !! "cn_height" = Some (VInt (v_ph hv)) /\
  meta !! "header_size" = Some (VInt (v_hl hv)) /\
  meta !! "phase_res" = Some (VInt (v_res hv)) /\
  meta !! "scale_factor" = Some (VFloat (v_sf hv)) /\
  meta !! "obliquity_factor" = Some (VFloat (v_of hv)) /\
  meta !! "wavelength" = Some (VFloat (v_wvl hv)).

Definition view_bounds (hv : header_view) : Prop :=
  0 <= v_iw hv < 65536 /\ 0 <= v_ih hv < 65536 /\ 0 <= v_ib hv < 65536 /\
  0 <= v_pw hv < 65536 /\ 0 <= v_ph hv < 65536 /\
  0 <= v_hl hv < 2 ^ 32 /\ 0 <= v_res hv < 65536.

Ltac in_table :=
  unfold _zygo_metadata_helper;
  repeat (first [left; reflexivity | right]).

Lemma read_zygo_metadata_eq (contents : list byte) :
  read_zygo_metadata contents = read_fields _zygo_metadata_helper contents ∅.
Proof. reflexivity. Qed.

Lemma metadata_field (contents : list byte) (meta : gmap string value)
    (k : string) (T : code) (lo hi : Z) (d : value) :
  read_zygo_metadata contents = Ok meta ->
  In (k, (T, lo, hi, d)) _zygo_metadata_helper ->
  Py.startswith k "__pad" = false ->
  exists v, read_field contents T lo hi = Ok v /\ meta !! k = Some v.
Proof.
  rewrite read_zygo_metadata_eq.
  apply read_fields_spec, keys_NoDup.
Qed.

Ltac table_field Hread k T lo hi d v Hf Hv :=
  let Hin := fresh "Hin" in
  assert (Hin : In (k, (T, lo, hi, d)) _zygo_metadata_helper) by in_table;
  destruct (metadata_field _ _ k T lo hi d Hread Hin eq_refl)
    as (v & Hf & Hv);
  clear Hin.

Ltac int_field Hread k T lo hi d z Hz Hb :=
  let v := fresh "v" in
  let Hf := fresh "Hf" in
  let Hv := fresh "Hv" in
  let Hvz := fresh "Hvz" in
  table_field Hread k T lo hi d v Hf Hv;
  destruct (read_int_field _ T _ _ _ I Hf) as (z & Hvz & Hb);
  subst v; cbn in Hb; pose proof Hv as Hz; clear Hv Hf.

Ltac float_field Hread k T lo hi d x Hx :=
  let v := fresh "v" in
  let Hf := fresh "Hf" in
  let Hv := fresh "Hv" in
  let Hvx := fresh "Hvx" in
  table_field Hread k T lo hi d v Hf Hv;
  destruct (read_float_field _ T _ _ _ I Hf) as (x & Hvx);
  subst v; pose proof Hv as Hx; clear Hv Hf.

Lemma metadata_views (contents : list byte) (meta : gmap string value) :
  read_zygo_metadata contents = Ok meta ->
  exists hv, views meta hv /\ view_bounds hv.
Proof.
  intros Hread.
  int_field Hread "ac_width" IB16 52 54 (VInt 0) iw Hiw Biw.
  int_field Hread "ac_height" IB16 54 56 (VInt 0) ih Hih Bih.
  int_field Hread "ac_n_buckets" IB16 56 58 (VInt 0) ib Hib Bib.
  int_field Hread "cn_width" IB16 68 70 (VInt 0) pw Hpw Bpw.
  int_field Hread "cn_height" IB16 70 72 (VInt 0) ph Hph Bph.
  int_field Hread "header_size" IB32 6 10 (VInt 834) hl Hhl Bhl.
  int_field Hread "phase_res" IB16 218 220 (VInt 1) res Hres Bres.
  float_field Hread "scale_factor" FB32 164 168 (VFloat (Np.Fin (5 # 10)))
    sf Hsf.
  float_field Hread "obliquity_factor" FB32 176 180 (VFloat (Np.Fin (1 # 1)))
    obl Hof.
  float_field Hread "wavelength" FB32 168 172 (VFloat ZYGO_DEFAULT_WVL)
    wvl Hwvl.
  exists {| v_iw := iw; v_ih := ih; v_ib := ib; v_pw := pw; v_ph := ph;
            v_hl := hl; v_res := res; v_sf := sf; v_of := obl;
            v_wvl := wvl |}.
  split; [repeat split; assumption|].
  unfold view_bounds. cbn. lia.
Qed.

Lemma views_unique (meta : gmap string value) (a b : header_view) :
  views meta a -> views meta b -> a = b.
Proof.
  unfold views. destruct a, b; cbn.
  intros (A1 & A2 & A3 & A4 & A5 & A6 & A7 & A8 & A9 & A10)
         (B1 & B2 & B3 & B4 & B5 & B6 & B7 & B8 & B9 & B10).
  f_equal; congruence.
Qed.

(** [read_zygo_dat] after the header, on the fields it uses. *)
Definition bucket_count (hv : header_view) : Z :=
  if v_ib hv =? 0 then 1 else v_ib hv.

Definition intensity_len (hv : header_view) : Z :=
  v_iw hv * v_ih hv * bucket_count hv.

Definition stack_of (hv : header_view) (flat : list Z) : list (list (list Z)) :=
  map (Np.reshape (Z.to_nat (v_ih hv)) (Z.to_nat (v_iw hv)))
      (Np.reshape (Z.to_nat (bucket_count hv))
         (Z.to_nat (v_ih hv * v_iw hv)) flat).

Definition phase_factor (hv : header_view) (res_factor : Z) : Np.float :=
  Np.fmul
    (Np.fmul (Np.fmul (Np.fmul (v_sf hv) (v_of hv)) (v_wvl hv))
       (Np.Fin (/ inject_Z res_factor)))
    (Np.Fin (1000000000 # 1)).

Definition read_body (contents : list byte) (action : string)
    (meta : gmap string value) (hv : header_view) : result zygo_dat :=
  let* flat :=
    frombuffer contents (v_hl hv) (intensity_len hv) 2 uint16_le in
  let* intensity := reduce action (stack_of hv flat) in
  let* phase_raw :=
    frombuffer contents (v_hl hv + intensity_len hv * 2)
      (v_pw hv * v_ph hv) 4 int32_be in
  match ZYGO_PHASE_RES_FACTORS !! v_res hv with
  | None =>
      Raise (KeyError
        (DecimalString.NilZero.string_of_int (Z.to_int (v_res hv))))
  | Some res_factor =>
      Ok {| phase :=
              Np.reshape (Z.to_nat (v_ph hv)) (Z.to_nat (v_pw hv))
                (map (phase_nm (phase_factor hv res_factor)) phase_raw);
            intensity := intensity;
            meta := meta |}
  end.

Lemma read_zygo_dat_body (contents : list byte) (action : string)
    (meta : gmap string value) (hv : header_view) :
  read_zygo_metadata contents = Ok meta -> views meta hv ->
  Zygo.read_zygo_dat utf8_decode contents action
  = read_body contents action meta hv.
Proof.
  intros Hread (H1 & H2 & H3 & H4 & H5 & H6 & H7 & H8 & H9 & H10).
  unfold Zygo.read_zygo_dat. rewrite Hread. cbn [bind].
  unfold meta_int, meta_float.
  rewrite H1, H2, H3, H4, H5, H6. cbn [bind].
  unfold read_body, intensity_len, bucket_count, stack_of.
  destruct (frombuffer contents (v_hl hv) _ 2 uint16_le) as [flat|e];
    [|reflexivity]. cbn [bind].
  destruct (reduce action _) as [fr|e]; [|reflexivity]. cbn [bind].
  destruct (frombuffer contents _ _ 4 int32_be) as [raw|e]; [|reflexivity].
  cbn [bind]. rewrite H8, H9, H10, H7. cbn [bind]. reflexivity.
Qed.

(** *** [np.frombuffer] *)

Lemma frombuffer_ok (contents : list byte) (offset count : Z)
    (itemsize : nat) (item : list byte -> Z) :
  0 <= offset -> 0 <= count ->
  offset + count * Z.of_nat itemsize <= Z.of_nat (List.length contents) ->
  frombuffer contents offset count itemsize item
  = Ok (map item (Np.reshape (Z.to_nat count) itemsize
                    (skipn (Z.to_nat offset) contents))).
Proof.
  intros Ho Hc Hlen. unfold frombuffer.
  destruct (offset <? 0) eqn:H1; [lia|].
  destruct (Z.of_nat (List.length contents) <? offset) eqn:H2; [nia|].
  cbn [orb].
  destruct (Z.of_nat (List.length contents) - offset
            <? count * Z.of_nat itemsize) eqn:H3; [lia|reflexivity].
Qed.

Lemma frombuffer_short (contents : list byte) (offset count : Z)
    (itemsize : nat) (item : list byte -> Z) :
  Z.of_nat (List.length contents) < offset + count * Z.of_nat itemsize ->
  0 <= count ->
  exists msg, frombuffer contents offset count itemsize item
              = Raise (ValueError msg).
Proof.
  intros Hlen Hc. unfold frombuffer.
  destruct ((offset <? 0) || (Z.of_nat (List.length contents) <? offset))
    eqn:H1; [eauto|].
  apply orb_false_iff in H1 as [H1 H2].
  destruct (Z.of_nat (List.length contents) - offset
            <? count * Z.of_nat itemsize) eqn:H3; [eauto|lia].
Qed.

(** The item [i] of a buffer read is decoded from the [itemsize] bytes at
    [offset + i * itemsize]. *)
Lemma frombuffer_item (contents : list byte) (offset count : Z)
    (itemsize : nat) (item : list byte -> Z) (flat : list Z) (i : nat) :
  frombuffer contents offset count itemsize item = Ok flat ->
  0 <= offset -> (i < Z.to_nat count)%nat ->
  nth i flat (item [])
  = item (firstn itemsize (skipn (Z.to_nat offset + i * itemsize) contents)).
Proof.
  unfold frombuffer.
  destruct (_ || _); [discriminate|]. destruct (_ <? _); [discriminate|].
  intros [= <-] Ho Hi.
  rewrite map_nth, ArrayFacts.reshape_nth by assumption.
  now rewrite skipn_skipn, Nat.add_comm.
Qed.

Lemma frombuffer_length (contents : list byte) (offset count : Z)
    (itemsize : nat) (item : list byte -> Z) (flat : list Z) :
  frombuffer contents offset count itemsize item = Ok flat ->
  List.length flat = Z.to_nat count.
Proof.
  unfold frombuffer.
  destruct (_ || _); [discriminate|]. destruct (_ <? _); [discriminate|].
  intros [= <-]. rewrite length_map. apply CodeVWriterFacts.reshape_length.
Qed.

(** *** The stack of intensity frames *)

Definition has_shape {A} (r c : nat) (fr : list (list A)) : Prop :=
  List.length fr = r /\ Forall (fun row => List.length row = c) fr.

Lemma reshape_has_shape {A} (r c : nat) (flat : list A) :
  (r * c <= List.length flat)%nat -> has_shape r c (Np.reshape r c flat).
Proof.
  intros H. split.
  - apply CodeVWriterFacts.reshape_length.
  - now apply CodeVWriterFacts.reshape_rows.
Qed.

(** The frame [b] of [flat.reshape((ib, ih, iw))] and its entries. *)
Lemma stack_frame (ib ih iw b : nat) (flat : list Z) :
  (b < ib)%nat ->
  nth b (map (Np.reshape ih iw) (Np.reshape ib (ih * iw) flat)) []
  = Np.reshape ih iw (firstn (ih * iw) (skipn (b * (ih * iw)) flat)).
Proof.
  intros Hb.
  rewrite (nth_indep _ [] (Np.reshape ih iw []))
    by (rewrite length_map, CodeVWriterFacts.reshape_length; assumption).
  rewrite map_nth. now rewrite ArrayFacts.reshape_nth.
Qed.

Lemma stack_entry (ib ih iw b i j : nat) (flat : list Z) :
  (b < ib)%nat -> (i < ih)%nat -> (j < iw)%nat ->
  nth j (nth i (nth b (map (Np.reshape ih iw)
                         (Np.reshape ib (ih * iw) flat)) []) []) 0
  = nth (b * (ih * iw) + (i * iw + j)) flat 0.
Proof.
  intros Hb Hi Hj. rewrite stack_frame by assumption.
  rewrite ArrayFacts.reshape_entry by assumption.
  rewrite ArrayFacts.nth_firstn by nia.
  apply ArrayFacts.nth_skipn.
Qed.

Lemma stack_frame_shape (ib ih iw b : nat) (flat : list Z) :
  (b < ib)%nat -> (ib * (ih * iw) <= List.length flat)%nat ->
  has_shape ih iw
    (nth b (map (Np.reshape ih iw) (Np.reshape ib (ih * iw) flat)) []).
Proof.
  intros Hb Hlen. rewrite stack_frame by assumption.
  apply reshape_has_shape. rewrite length_firstn, length_skipn. nia.
Qed.

(** *** The mean over the buckets *)

Lemma zip_with_length {A B C} (f : A -> B -> C) (a : list A) (b : list B) :
  List.length a = List.length b ->
  List.length (zip_with f a b) = List.length a.
Proof.
  revert b; induction a as [|x a IH]; intros [|y b] H; cbn in *;
    try reflexivity; try discriminate.
  f_equal. apply IH. congruence.
Qed.

Lemma zip_with_nth {A B C} (f : A -> B -> C) (a : list A) (b : list B)
    (i : nat) (da : A) (db : B) (dc : C) :
  (i < List.length a)%nat -> (i < List.length b)%nat ->
  nth i (zip_with f a b) dc = f (nth i a da) (nth i b db).
Proof.
  revert b i; induction a as [|x a IH]; intros [|y b] i Ha Hb; cbn in *;
    try lia.
  destruct i as [|i]; [reflexivity|]. apply IH; lia.
Qed.

Lemma add_frames_shape (r c : nat) (a b : list (list Q)) :
  has_shape r c a -> has_shape r c b -> has_shape r c (add_frames a b).
Proof.
  intros [Ha Fa] [Hb Fb]. unfold add_frames. split.
  - rewrite zip_with_length; congruence.
  - subst r. revert b Hb Fb.
    induction Fa as [|x a Hx Fa IH]; intros [|y b] Hb Fb; cbn in *;
      try constructor; try discriminate.
    + apply Forall_cons_iff in Fb as [Hy _].
      rewrite zip_with_length; congruence.
    + apply Forall_cons_iff in Fb as [_ Fb]. apply IH; [congruence|exact Fb].
Qed.

Lemma nth_row_length {A} (r c i : nat) (fr : list (list A)) :
  has_shape r c fr -> (i < r)%nat -> List.length (nth i fr []) = c.
Proof.
  intros [Hl Hf] Hi. rewrite List.Forall_forall in Hf. apply Hf.
  apply nth_In. lia.
Qed.

Lemma add_frames_entry (r c i j : nat) (a b : list (list Q)) :
  has_shape r c a -> has_shape r c b -> (i < r)%nat -> (j < c)%nat ->
  nth j (nth i (add_frames a b) []) 0%Q
  = (nth j (nth i a []) 0 + nth j (nth i b []) 0)%Q.
Proof.
  intros Sa Sb Hi Hj. unfold add_frames.
  rewrite (zip_with_nth _ a b i [] [] [])
    by (destruct Sa, Sb; lia).
  apply zip_with_nth.
  - now rewrite (nth_row_length r c i a).
  - now rewrite (nth_row_length r c i b).
Qed.

Lemma fold_add_frames (r c i j : nat) (fs : list (list (list Q)))
    (f : list (list Q)) :
  has_shape r c f -> Forall (has_shape r c) fs ->
  (i < r)%nat -> (j < c)%nat ->
  has_shape r c (fold_left add_frames fs f) /\
  nth j (nth i (fold_left add_frames fs f) []) 0%Q
  = fold_left Qplus (map (fun fr => nth j (nth i fr []) 0%Q) fs)
      (nth j (nth i f []) 0%Q).
Proof.
  intros Sf Sfs Hi Hj. revert f Sf.
  induction Sfs as [|g fs Sg _ IH]; intros f Sf; cbn [fold_left map].
  - split; [assumption|reflexivity].
  - destruct (IH (add_frames f g) (add_frames_shape _ _ _ _ Sf Sg))
      as [S E].
    split; [exact S|]. rewrite E. f_equal.
    now apply (add_frames_entry r c).
Qed.

Lemma map_inject_shape (r c : nat) (fr : list (list Z)) :
  has_shape r c fr -> has_shape r c (map (map inject_Z) fr).
Proof.
  intros [Hl Hf]. split; [now rewrite length_map|].
  rewrite List.Forall_map. eapply List.Forall_impl; [|exact Hf].
  intros row Hrow. cbn. now rewrite length_map.
Qed.

Lemma map_inject_entry (i j : nat) (fr : list (list Z)) :
  nth j (nth i (map (map inject_Z) fr) []) 0%Q
  = inject_Z (nth j (nth i fr []) 0).
Proof.
  change (@nil Q) with (map inject_Z []). rewrite map_nth.
  change 0%Q with (inject_Z 0). now rewrite map_nth.
Qed.

Lemma map_nth_in {A B} (g : A -> B) (l : list A) (j : nat) (d : B) (d' : A) :
  (j < List.length l)%nat -> nth j (map g l) d = g (nth j l d').
Proof.
  intros Hj. rewrite (nth_indep _ d (g d')) by now rewrite length_map.
  apply map_nth.
Qed.

(** The entry [(i, j)] of [intensity.mean(axis=0)]: the entries of the
    frames, added from the first on, over the number of frames. *)
Lemma mean_axis0_entry (r c i j : nat) (f : list (list Z))
    (fs : list (list (list Z))) :
  Forall (has_shape r c) (f :: fs) -> (i < r)%nat -> (j < c)%nat ->
  nth j (nth i (mean_axis0 (f :: fs)) []) 0%Q
  = (fold_left Qplus
       (map (fun fr : list (list Z) => inject_Z (nth j (nth i fr []) 0%Z)) fs)
       (inject_Z (nth j (nth i f []) 0%Z))
     / inject_Z (Z.of_nat (S (List.length fs))))%Q.
Proof.
  intros Sh Hi Hj. apply Forall_cons_iff in Sh as [Sf Sfs].
  unfold mean_axis0. cbn [map List.length].
  set (n := inject_Z (Z.of_nat (S (List.length fs)))).
  destruct (fold_add_frames r c i j (map (map (map inject_Z)) fs)
              (map (map inject_Z) f)) as [[Sl Sr] E];
    [now apply map_inject_shape
    |rewrite List.Forall_map; eapply List.Forall_impl; [|exact Sfs];
     intros fr; apply map_inject_shape
    |assumption|assumption|].
  change (@nil Q) with (map (fun t : Q => (t / n)%Q) []) at 1.
  rewrite map_nth.
  rewrite (map_nth_in _ _ _ _ 0%Q)
    by (rewrite (nth_row_length r c); [assumption|now split|assumption]).
  rewrite E. f_equal.
  rewrite map_map. rewrite map_inject_entry. f_equal.
  apply map_ext. intros fr. apply map_inject_entry.
Qed.

(** *** The intensity block *)

(** The sample [k] of the intensity block: two bytes, the low one first,
    at [header_size + 2 k]. *)
Definition sample16 (contents : list byte) (hl : Z) (k : nat) : Z :=
  uint16_le (firstn 2 (skipn (Z.to_nat hl + k * 2) contents)).

Definition policies : list string := ["avg"; "first"; "last"].

Definition policy_error (action : string) : exn :=
  ValueError ("multi_intensity_action " +:+ action
              +:+ " not among valid options of avg, first, last.").

Lemma bucket_count_pos (hv : header_view) :
  view_bounds hv -> 1 <= bucket_count hv < 65536.
Proof.
  unfold view_bounds, bucket_count. intros H.
  destruct (v_ib hv =? 0) eqn:E; lia.
Qed.

Lemma map_tl_seq {A B} (g : A -> B) (l : list A) (d : A) :
  map g (tl l) = map (fun b => g (nth b l d)) (seq 1 (List.length l - 1)).
Proof.
  destruct l as [|x l]; [reflexivity|]. cbn [tl List.length].
  rewrite Nat.sub_succ, Nat.sub_0_r.
  rewrite <- seq_shift, map_map. cbn [nth].
  induction l as [|y l IH]; [reflexivity|].
  cbn [List.length seq map nth]. f_equal.
  rewrite <- seq_shift, map_map. exact IH.
Qed.

Section Block.

Variables (contents : list byte) (hv : header_view) (flat : list Z).
Hypothesis Hb : view_bounds hv.
Hypothesis Hflat :
  frombuffer contents (v_hl hv) (intensity_len hv) 2 uint16_le = Ok flat.

Let ib := Z.to_nat (bucket_count hv).
Let ih := Z.to_nat (v_ih hv).
Let iw := Z.to_nat (v_iw hv).

Lemma intensity_len_nat : Z.to_nat (intensity_len hv) = (ib * (ih * iw))%nat.
Proof.
  pose proof (bucket_count_pos hv Hb). unfold view_bounds in Hb.
  unfold intensity_len, ib, ih, iw.
  rewrite !Z2Nat.inj_mul by nia.
  generalize (Z.to_nat (v_iw hv)), (Z.to_nat (v_ih hv)),
    (Z.to_nat (bucket_count hv)).
  intros a b c. nia.
Qed.

Lemma flat_length : List.length flat = (ib * (ih * iw))%nat.
Proof. rewrite (frombuffer_length _ _ _ _ _ _ Hflat). apply intensity_len_nat. Qed.

Lemma flat_sample (k : nat) :
  (k < ib * (ih * iw))%nat -> nth k flat 0 = sample16 contents (v_hl hv) k.
Proof.
  intros Hk. unfold sample16.
  change 0 with (uint16_le []).
  apply (frombuffer_item _ _ _ _ _ _ _ Hflat).
  - unfold view_bounds in Hb. lia.
  - now rewrite intensity_len_nat.
Qed.

Lemma stack_of_eq :
  stack_of hv flat
  = map (Np.reshape ih iw) (Np.reshape ib (ih * iw) flat).
Proof.
  unfold stack_of, ib, ih, iw. unfold view_bounds in Hb.
  now rewrite Z2Nat.inj_mul by lia.
Qed.

Lemma stack_length : List.length (stack_of hv flat) = ib.
Proof.
  rewrite stack_of_eq, length_map. apply CodeVWriterFacts.reshape_length.
Qed.

Lemma stack_shapes : Forall (has_shape ih iw) (stack_of hv flat).
Proof.
  rewrite List.Forall_forall. intros fr Hin.
  apply (In_nth _ _ []) in Hin as (b & Hlt & <-).
  rewrite stack_length in Hlt. rewrite stack_of_eq.
  apply stack_frame_shape; [assumption|]. now rewrite flat_length.
Qed.

Lemma stack_sample (b i j : nat) :
  (b < ib)%nat -> (i < ih)%nat -> (j < iw)%nat ->
  nth j (nth i (nth b (stack_of hv flat) []) []) 0
  = sample16 contents (v_hl hv) (b * (ih * iw) + (i * iw + j)).
Proof.
  intros Hlb Hi Hj. rewrite stack_of_eq, stack_entry by assumption.
  apply flat_sample.
  assert (H1 : (i * iw + j < ih * iw)%nat) by nia.
  assert (H2 : ((b + 1) * (ih * iw) <= ib * (ih * iw))%nat)
    by (apply Nat.mul_le_mono_r; lia).
  lia.
Qed.

Lemma ib_pos : (1 <= ib)%nat.
Proof. pose proof (bucket_count_pos hv Hb). unfold ib. lia. Qed.

(** What each policy returns on the stack. *)
Lemma reduce_first (action : string) :
  Py.lower action = "first" ->
  exists F, reduce action (stack_of hv flat) = Ok (IntFrame F) /\
    has_shape ih iw F /\
    forall i j, (i < ih)%nat -> (j < iw)%nat ->
      nth j (nth i F []) 0
      = sample16 contents (v_hl hv) (i * iw + j).
Proof.
  intros Ha. unfold reduce. rewrite Ha. cbn [String.eqb Ascii.eqb Bool.eqb].
  pose proof ib_pos as Hp. pose proof stack_length as Hl.
  pose proof stack_shapes as Hs.
  destruct (stack_of hv flat) as [|f fs] eqn:E; [cbn in Hl; lia|].
  cbn [Trioptics.item nth_error bind]. exists f. split; [reflexivity|].
  split; [now apply Forall_cons_iff in Hs|].
  intros i j Hi Hj.
  change f with (nth 0 (f :: fs) []). rewrite <- E.
  now rewrite stack_sample by (assumption || lia).
Qed.

Lemma reduce_last (action : string) :
  Py.lower action = "last" ->
  exists F, reduce action (stack_of hv flat) = Ok (IntFrame F) /\
    has_shape ih iw F /\
    forall i j, (i < ih)%nat -> (j < iw)%nat ->
      nth j (nth i F []) 0
      = sample16 contents (v_hl hv) ((ib - 1) * (ih * iw) + (i * iw + j)).
Proof.
  intros Ha. unfold reduce. rewrite Ha. cbn [String.eqb Ascii.eqb Bool.eqb].
  pose proof ib_pos as Hp. pose proof stack_length as Hl.
  pose proof stack_shapes as Hs.
  unfold Trioptics.item.
  destruct (nth_error (stack_of hv flat) (List.length (stack_of hv flat) - 1))
    as [f|] eqn:E.
  2:{ apply nth_error_None in E. lia. }
  cbn [bind]. exists f. split; [reflexivity|].
  rewrite Hl in E. apply (nth_error_nth _ _ []) in E. subst f.
  split.
  - rewrite List.Forall_forall in Hs. apply Hs, nth_In. lia.
  - intros i j Hi Hj. apply stack_sample; (assumption || lia).
Qed.

Lemma reduce_avg (action : string) :
  Py.lower action = "avg" ->
  exists F, reduce action (stack_of hv flat) = Ok (FloatFrame F) /\
    forall i j, (i < ih)%nat -> (j < iw)%nat ->
      nth j (nth i F []) 0%Q
      = (fold_left Qplus
           (map (fun b =>
                   inject_Z (sample16 contents (v_hl hv)
                               (b * (ih * iw) + (i * iw + j))))
                (seq 1 (ib - 1)))
           (inject_Z (sample16 contents (v_hl hv) (i * iw + j)))
         / inject_Z (Z.of_nat ib))%Q.
Proof.
  intros Ha. unfold reduce. rewrite Ha. cbn [String.eqb Ascii.eqb Bool.eqb].
  eexists. split; [reflexivity|]. intros i j Hi Hj.
  pose proof ib_pos as Hp. pose proof stack_length as Hl.
  pose proof stack_shapes as Hs.
  pose proof stack_sample as Hsam.
  destruct (stack_of hv flat) as [|f fs] eqn:E; [cbn in Hl; lia|].
  rewrite (mean_axis0_entry ih iw) by assumption.
  cbn [List.length] in Hl. rewrite Hl. f_equal.
  change fs with (tl (f :: fs)).
  rewrite (map_tl_seq _ (f :: fs) []). cbn [List.length].
  rewrite Hl.
  replace (nth j (nth i f []) 0) with (nth j (nth i (nth 0%nat (f :: fs) []) []) 0)
    by reflexivity.
  rewrite Hsam by (assumption || lia). cbn [Nat.mul Nat.add]. f_equal.
  apply map_ext_in. intros b Hin. apply in_seq in Hin.
  now rewrite Hsam by (assumption || lia).
Qed.

Lemma reduce_invalid (action : string) :
  ~ In (Py.lower action) policies ->
  reduce action (stack_of hv flat) = Raise (policy_error action).
Proof.
  intros Hn. unfold reduce. unfold policies in Hn. cbn [In] in Hn.
  destruct (String.eqb_spec (Py.lower action) "avg") as [e|_];
    [rewrite e in Hn; tauto|].
  destruct (String.eqb_spec (Py.lower action) "first") as [e|_];
    [rewrite e in Hn; tauto|].
  destruct (String.eqb_spec (Py.lower action) "last") as [e|_];
    [rewrite e in Hn; tauto|].
  reflexivity.
Qed.

End Block.

(** *** The reduction of the intensity stack *)

Lemma bounds_of_views (contents : list byte) (meta : gmap string value)
    (hv : header_view) :
  read_zygo_metadata contents = Ok meta -> views meta hv -> view_bounds hv.
Proof.
  intros Hread Hv. destruct (metadata_views _ _ Hread) as (hv' & Hv' & Hb).
  now rewrite (views_unique _ _ _ Hv Hv').
Qed.

Lemma intensity_block_read (contents : list byte) (hv : header_view) :
  view_bounds hv ->
  v_hl hv + intensity_len hv * 2 <= Z.of_nat (List.length contents) ->
  exists flat,
    frombuffer contents (v_hl hv) (intensity_len hv) 2 uint16_le = Ok flat.
Proof.
  intros Hb Hlen. pose proof (bucket_count_pos hv Hb) as Hp.
  unfold view_bounds in Hb.
  eexists. apply frombuffer_ok; [lia| |exact Hlen].
  unfold intensity_len. nia.
Qed.

Lemma intensity_of_result (contents : list byte) (action : string)
    (meta : gmap string value) (hv : header_view) (flat : list Z)
    (fr : frame) (r : zygo_dat) :
  frombuffer contents (v_hl hv) (intensity_len hv) 2 uint16_le = Ok flat ->
  reduce action (stack_of hv flat) = Ok fr ->
  read_body contents action meta hv = Ok r -> intensity r = fr.
Proof.
  intros Hflat Hred. unfold read_body. rewrite Hflat. cbn [bind].
  rewrite Hred. cbn [bind].
  destruct (frombuffer contents _ _ 4 int32_be); [|discriminate].
  cbn [bind]. destruct (ZYGO_PHASE_RES_FACTORS !! v_res hv); [|discriminate].
  now intros [= <-].
Qed.

(** C9: for a buffer whose header unpacks and that holds the intensity
    block, a policy other than [avg], [first] and [last] (in any case of
    the letters) makes the reader raise its [ValueError]; when the reader
    returns, [first] gave the first bucket, [last] the last one and [avg]
    the sum of the buckets over their number, entry by entry; and the
    reader does return under a valid policy when the phase block is in the
    buffer and the resolution code is in the table. *)
Theorem intensity_reduced_by_policy (contents : list byte) (action : string)
    (meta : gmap string value) (hv : header_view) :
  read_zygo_metadata contents = Ok meta -> views meta hv ->
  v_hl hv + intensity_len hv * 2 <= Z.of_nat (List.length contents) ->
  let ib := Z.to_nat (bucket_count hv) in
  let ih := Z.to_nat (v_ih hv) in
  let iw := Z.to_nat (v_iw hv) in
  let px (b i j : nat) :=
    sample16 contents (v_hl hv) (b * (ih * iw) + (i * iw + j)) in
  (~ In (Py.lower action) policies ->
   Zygo.read_zygo_dat utf8_decode contents action
   = Raise (policy_error action)) /\
  (forall r,
      Zygo.read_zygo_dat utf8_decode contents action = Ok r ->
      (Py.lower action = "first" ->
       exists F, intensity r = IntFrame F /\ has_shape ih iw F /\
         forall i j, (i < ih)%nat -> (j < iw)%nat ->
           nth j (nth i F []) 0 = px 0%nat i j) /\
      (Py.lower action = "last" ->
       exists F, intensity r = IntFrame F /\ has_shape ih iw F /\
         forall i j, (i < ih)%nat -> (j < iw)%nat ->
           nth j (nth i F []) 0 = px (ib - 1)%nat i j) /\
      (Py.lower action = "avg" ->
       exists F, intensity r = FloatFrame F /\
         forall i j, (i < ih)%nat -> (j < iw)%nat ->
           nth j (nth i F []) 0%Q
           = (fold_left Qplus
                (map (fun b => inject_Z (px b i j)) (seq 1 (ib - 1)))
                (inject_Z (px 0%nat i j))
              / inject_Z (Z.of_nat ib))%Q)) /\
  (In (Py.lower action) policies ->
   v_hl hv + intensity_len hv * 2 + v_pw hv * v_ph hv * 4
   <= Z.of_nat (List.length contents) ->
   is_Some (ZYGO_PHASE_RES_FACTORS !! v_res hv) ->
   exists r, Zygo.read_zygo_dat utf8_decode contents action = Ok r).
Proof.
  intros Hread Hv Hlen ib ih iw px.
  pose proof (bounds_of_views _ _ _ Hread Hv) as Hb.
  destruct (intensity_block_read _ _ Hb Hlen) as [flat Hflat].
  rewrite (read_zygo_dat_body _ action _ _ Hread Hv).
  split; [|split].
  - intros Hn. unfold read_body. rewrite Hflat. cbn [bind].
    now rewrite (reduce_invalid contents hv flat action Hn).
  - intros r Hr. split; [|split]; intros Ha.
    + destruct (reduce_first contents hv flat Hb Hflat action Ha)
        as (F & HF & Hs & He).
      exists F. split; [|split; [exact Hs|]].
      * exact (intensity_of_result _ _ _ _ _ _ _ Hflat HF Hr).
      * intros i j Hi Hj. unfold px. cbn [Nat.mul Nat.add].
        now apply He.
    + destruct (reduce_last contents hv flat Hb Hflat action Ha)
        as (F & HF & Hs & He).
      exists F. split; [|split; [exact Hs|]].
      * exact (intensity_of_result _ _ _ _ _ _ _ Hflat HF Hr).
      * intros i j Hi Hj. now apply He.
    + destruct (reduce_avg contents hv flat Hb Hflat action Ha)
        as (F & HF & He).
      exists F. split.
      * exact (intensity_of_result _ _ _ _ _ _ _ Hflat HF Hr).
      * intros i j Hi Hj. unfold px. cbn [Nat.mul Nat.add].
        now apply He.
  - intros Hin Hlen2 [rf Hrf].
    assert (Hred : exists fr, reduce action (stack_of hv flat) = Ok fr).
    { destruct Hin as [Ha|[Ha|[Ha|[]]]]; symmetry in Ha.
      - destruct (reduce_avg contents hv flat Hb Hflat action Ha)
          as (F & HF & _). eauto.
      - destruct (reduce_first contents hv flat Hb Hflat action Ha)
          as (F & HF & _). eauto.
      - destruct (reduce_last contents hv flat Hb Hflat action Ha)
          as (F & HF & _). eauto. }
    destruct Hred as [fr Hred].
    unfold read_body. rewrite Hflat. cbn [bind]. rewrite Hred. cbn [bind].
    pose proof (bucket_count_pos hv Hb) as Hp. pose proof Hb as Hb'.
    unfold view_bounds in Hb'.
    rewrite frombuffer_ok; [| unfold intensity_len; nia | nia |].
    + cbn [bind]. rewrite Hrf. eauto.
    + change (Z.of_nat 4) with 4. lia.
Qed.

(** *** A header with no bucket *)

(** [fr] is the frame of [ih] rows and [iw] columns whose entry [(i, j)] is
    [px i j], as integers or as the same numbers in floating point. *)
Definition single_frame (ih iw : nat) (px : nat -> nat -> Z) (fr : frame)
    : Prop :=
  match fr with
  | IntFrame F =>
      has_shape ih iw F /\
      forall i j, (i < ih)%nat -> (j < iw)%nat -> nth j (nth i F []) 0 = px i j
  | FloatFrame F =>
      forall i j, (i < ih)%nat -> (j < iw)%nat ->
        (nth j (nth i F []) 0 == inject_Z (px i j))%Q
  end.

Lemma policy_dec (action : string) :
  {In (Py.lower action) policies} + {~ In (Py.lower action) policies}.
Proof. apply in_dec, string_dec. Qed.

(** C10: when [ac_n_buckets] is 0 the reader takes one bucket: it reads
    [ac_width * ac_height] samples after the header and, when it returns,
    the intensity is the frame of these samples under each of the three
    policies; a zero count is no cause of an error: the reader returns
    whenever that block and the phase block are in the buffer (and the
    policy and the resolution code are valid). *)
Theorem zero_buckets_read_as_one (contents : list byte) (action : string)
    (meta : gmap string value) (hv : header_view) :
  read_zygo_metadata contents = Ok meta -> views meta hv -> v_ib hv = 0 ->
  let ih := Z.to_nat (v_ih hv) in
  let iw := Z.to_nat (v_iw hv) in
  intensity_len hv = v_iw hv * v_ih hv /\
  (forall r,
      Zygo.read_zygo_dat utf8_decode contents action = Ok r ->
      single_frame ih iw
        (fun i j => sample16 contents (v_hl hv) (i * iw + j))
        (intensity r)) /\
  (In (Py.lower action) policies ->
   v_hl hv + v_iw hv * v_ih hv * 2 + v_pw hv * v_ph hv * 4
   <= Z.of_nat (List.length contents) ->
   is_Some (ZYGO_PHASE_RES_FACTORS !! v_res hv) ->
   exists r, Zygo.read_zygo_dat utf8_decode contents action = Ok r).
Proof.
  intros Hread Hv Hzero ih iw.
  pose proof (bounds_of_views _ _ _ Hread Hv) as Hb.
  assert (Hbc : bucket_count hv = 1) by (unfold bucket_count; now rewrite Hzero).
  assert (Hil : intensity_len hv = v_iw hv * v_ih hv)
    by (unfold intensity_len; rewrite Hbc; apply Z.mul_1_r).
  split; [exact Hil|]. split.
  - intros r Hr.
    rewrite (read_zygo_dat_body _ action _ _ Hread Hv) in Hr.
    pose proof Hr as Hr'. unfold read_body in Hr'.
    destruct (frombuffer contents (v_hl hv) (intensity_len hv) 2 uint16_le)
      as [flat|e] eqn:Hflat; [|discriminate].
    cbn [bind] in Hr'.
    destruct (reduce action (stack_of hv flat)) as [fr|e] eqn:Hred;
      [|discriminate].
    clear Hr'.
    rewrite (intensity_of_result _ _ _ _ _ _ _ Hflat Hred Hr).
    destruct (policy_dec action) as [Hin|Hn].
    2:{ rewrite (reduce_invalid contents hv flat action Hn) in Hred.
        discriminate. }
    destruct Hin as [Ha|[Ha|[Ha|[]]]]; symmetry in Ha.
    + destruct (reduce_avg contents hv flat Hb Hflat action Ha)
        as (F & HF & He).
      rewrite HF in Hred. injection Hred as <-. cbn [single_frame].
      intros i j Hi Hj. rewrite (He i j Hi Hj). rewrite Hbc.
      cbn [Z.to_nat Pos.to_nat Pos.iter_op Nat.sub seq map fold_left].
      cbn [Nat.add Z.of_nat Pos.of_succ_nat]. unfold Qdiv.
      change (/ inject_Z 1)%Q with 1%Q. now rewrite Qmult_1_r.
    + destruct (reduce_first contents hv flat Hb Hflat action Ha)
        as (F & HF & Hs & He).
      rewrite HF in Hred. injection Hred as <-. cbn [single_frame].
      split; [exact Hs|exact He].
    + destruct (reduce_last contents hv flat Hb Hflat action Ha)
        as (F & HF & Hs & He).
      rewrite HF in Hred. injection Hred as <-. cbn [single_frame].
      split; [exact Hs|]. intros i j Hi Hj. rewrite (He i j Hi Hj).
      rewrite Hbc. reflexivity.
  - intros Hin Hlen Hres.
    unfold view_bounds in Hb.
    apply (intensity_reduced_by_policy contents action meta hv Hread Hv);
      try assumption; rewrite Hil; nia.
Qed.

End Meta.

(** *** Example buffers *)

Definition not_pad (e : string * (code * Z * Z * value)) : bool :=
  match Py.index_of "__pad" (fst e) with Some _ => false | None => true end.

(** The header that the writer's loop packs from the defaults of the
    table, with some of them replaced. *)
Definition header_with (overrides : list (string * value))
    : result (list byte) :=
  pack_fields
    (fold_left (fun t kv => set_default (fst kv) (snd kv) t) overrides
       (List.filter not_pad _zygo_metadata_helper))
    (repeat Byte.x00 834).

Definition dat_with (overrides : list (string * value))
    (intensity phase : list byte) : list byte :=
  match header_with overrides with
  | Ok h => h ++ intensity ++ phase
  | Raise _ => []
  end.

Definition bytes_of (l : list Z) : list byte := map byte_of_Z l.

Definition view_of (meta : gmap string value) : header_view :=
  let int k := match meta !! k with Some (VInt z) => z | _ => 0 end in
  let flt k := match meta !! k with Some (VFloat x) => x | _ => Np.NaN end in
  {| v_iw := int "ac_width"; v_ih := int "ac_height";
     v_ib := int "ac_n_buckets"; v_pw := int "cn_width";
     v_ph := int "cn_height"; v_hl := int "header_size";
     v_res := int "phase_res"; v_sf := flt "scale_factor";
     v_of := flt "obliquity_factor"; v_wvl := flt "wavelength" |}.

Definition meta_of (contents : list byte) : gmap string value :=
  match Zygo.read_zygo_metadata Instances.ascii_decode contents with
  | Ok m => m
  | Raise _ => ∅
  end.

(** Two buckets of one row of two samples, [1 2] and [3 5], and one phase
    code. *)
Definition two_buckets : list byte :=
  dat_with [("ac_width", VInt 2); ("ac_height", VInt 1);
            ("ac_n_buckets", VInt 2); ("cn_width", VInt 1);
            ("cn_height", VInt 1)]
    (bytes_of [1; 0; 2; 0; 3; 0; 5; 0]) (bytes_of [0; 0; 0; 100]).

(** No bucket declared, one row of two samples, [7 9], and one phase
    code. *)
Definition no_bucket : list byte :=
  dat_with [("ac_width", VInt 2); ("ac_height", VInt 1);
            ("cn_width", VInt 1); ("cn_height", VInt 1)]
    (bytes_of [7; 0; 9; 0]) (bytes_of [0; 0; 0; 100]).

Definition is_ok {A : Type} (r : result A) : bool :=
  match r with Ok _ => true | Raise _ => false end.

Lemma meta_of_read (contents : list byte) :
  is_ok (Zygo.read_zygo_metadata Instances.ascii_decode contents) = true ->
  Zygo.read_zygo_metadata Instances.ascii_decode contents
  = Ok (meta_of contents).
Proof.
  unfold meta_of.
  destruct (Zygo.read_zygo_metadata Instances.ascii_decode contents);
    [reflexivity | discriminate].
Qed.

Definition two_buckets_view : header_view :=
  Eval vm_compute in view_of (meta_of two_buckets).

Definition no_bucket_view : header_view :=
  Eval vm_compute in view_of (meta_of no_bucket).

Lemma intensity_reduced_witness :
  Zygo.read_zygo_dat Instances.ascii_decode two_buckets "bogus"
  = Raise (policy_error "bogus") /\
  exists r F,
    Zygo.read_zygo_dat Instances.ascii_decode two_buckets "Last" = Ok r /\
    intensity r = IntFrame F /\ nth 1 (nth 0 F []) 0 = 5.
Proof.
  assert (Hread : Zygo.read_zygo_metadata Instances.ascii_decode two_buckets
                  = Ok (meta_of two_buckets))
    by (apply meta_of_read; vm_compute; reflexivity).
  assert (Hv : views (meta_of two_buckets) two_buckets_view)
    by (unfold views; repeat apply conj; vm_compute; reflexivity).
  assert (Hlen : v_hl two_buckets_view + intensity_len two_buckets_view * 2
                 <= Z.of_nat (List.length two_buckets))
    by (vm_compute; discriminate).
  destruct (intensity_reduced_by_policy Instances.ascii_decode two_buckets
              "bogus" _ _ Hread Hv Hlen) as (Hbad & _ & _).
  destruct (intensity_reduced_by_policy Instances.ascii_decode two_buckets
              "Last" _ _ Hread Hv Hlen) as (_ & Hgood & Hret).
  split.
  - apply Hbad. vm_compute. intros [H|[H|[H|[]]]]; discriminate.
  - destruct Hret as [r Hr].
    + vm_compute. auto.
    + vm_compute. discriminate.
    + vm_compute. eauto.
    + destruct (Hgood r Hr) as (_ & Hlast & _).
      destruct (Hlast eq_refl) as (F & HF & _ & He).
      exists r, F. split; [exact Hr|]. split; [exact HF|].
      rewrite (He 0%nat 1%nat) by (vm_compute; lia).
      vm_compute. reflexivity.
Defined.

Lemma zero_buckets_witness :
  exists r,
    Zygo.read_zygo_dat Instances.ascii_decode no_bucket "first" = Ok r /\
    single_frame 1 2 (fun i j => sample16 no_bucket 834 (i * 2 + j))
      (intensity r) /\
    sample16 no_bucket 834 0 = 7 /\ sample16 no_bucket 834 1 = 9.
Proof.
  assert (Hread : Zygo.read_zygo_metadata Instances.ascii_decode no_bucket
                  = Ok (meta_of no_bucket))
    by (apply meta_of_read; vm_compute; reflexivity).
  assert (Hv : views (meta_of no_bucket) no_bucket_view)
    by (unfold views; repeat apply conj; vm_compute; reflexivity).
  destruct (zero_buckets_read_as_one Instances.ascii_decode no_bucket "first"
              _ _ Hread Hv eq_refl) as (_ & Hframe & Hret).
  destruct Hret as [r Hr].
  - vm_compute. auto.
  - vm_compute. discriminate.
  - vm_compute. eauto.
  - exists r. split; [exact Hr|]. split; [exact (Hframe r Hr)|].
    split; vm_compute; reflexivity.
Defined.

End ZygoReadFacts.
